(** * AgentGo MCP service: challenge / session state machine

    A shallow embedding of [agentgo_mcp_service.py]: the login challenge
    generator ([get_trustgo_login_message]), the login verifier
    ([trustgo_login]), the social-binding generator and verifier
    ([login_twitter], [verify_twitter_signature]) and the dataset query
    gate ([query_ranked_bubbles]), over the two module-level dictionaries
    [challenge_storage] and [auth_tokens].

    Python values that cross the boundary (tool results, decoded JSON
    bodies) are kept as a small value tree; the two stores are finite maps
    keyed by address.  A coroutine that suspends on its single upstream
    request is a [task]: either it returns without suspending, or it
    yields the request together with the store as it stands at the
    suspension point and a continuation for the reply. *)

From Stdlib Require Import ZArith Lia.
From Stdlib Require Import Floats.SpecFloat.
From stdpp Require Import gmap strings pretty.

Open Scope Z_scope.
Set Warnings "-register-all".

(** ** Python values *)

(** Decoded JSON and tool results.  A dict is kept in insertion order;
    its keys are unique, and a list that repeats a key stands for the
    dict of its first bindings. *)
Inductive pyval : Type :=
| PNone
| PBool (b : bool)
| PInt (z : Z)
| PFloat (f : spec_float)
| PStr (s : string)
| PList (l : list pyval)
| PDict (d : list (string * pyval)).

(** The [number] argument of [trustgo_login]: [Union[float, int]]. *)
Inductive number : Type :=
| NInt (z : Z)
| NFloat (f : spec_float).

Definition number_val (n : number) : pyval :=
  match n with NInt z => PInt z | NFloat f => PFloat f end.

(** [float == int] in Python compares the exact mathematical values. *)
Definition float_eq_int (f : spec_float) (z : Z) : bool :=
  match f with
  | S754_zero _ => z =? 0
  | S754_infinity _ => false
  | S754_nan => false
  | S754_finite s m e =>
      let v := if s then Z.neg m else Z.pos m in
      if 0 <=? e then z =? v * 2 ^ e else v =? z * 2 ^ (- e)
  end.

Definition number_eq (n : number) (z : Z) : bool :=
  match n with
  | NInt k => k =? z
  | NFloat f => float_eq_int f z
  end.

(** [bool(v)] *)
Definition truthy (v : pyval) : bool :=
  match v with
  | PNone => false
  | PBool b => b
  | PInt z => negb (z =? 0)
  | PFloat (S754_zero _) => false
  | PFloat _ => true
  | PStr s => negb (String.eqb s "")
  | PList l => match l with [] => false | _ => true end
  | PDict d => match d with [] => false | _ => true end
  end.

(** [v == s] for a [str] [s]. *)
Definition eq_str (v : pyval) (s : string) : bool :=
  match v with PStr t => String.eqb t s | _ => false end.

Fixpoint assoc {A} (k : string) (d : list (string * A)) : option A :=
  match d with
  | [] => None
  | (k', v) :: d' => if String.eqb k k' then Some v else assoc k d'
  end.

Definition type_name (v : pyval) : string :=
  match v with
  | PNone => "NoneType"
  | PBool _ => "bool"
  | PInt _ => "int"
  | PFloat _ => "float"
  | PStr _ => "str"
  | PList _ => "list"
  | PDict _ => "dict"
  end.

(** ** Exceptions and string conversion *)

Inductive exn : Type :=
| KeyError (key : pyval)
| AttributeError (ty attr : string)
| ClientError (msg : string).

(** [v.get(key, dflt)]: only a dict has the method. *)
Definition py_get (v : pyval) (key : string) (dflt : pyval) : exn + pyval :=
  match v with
  | PDict d => inr (default dflt (assoc key d))
  | _ => inl (AttributeError (type_name v) "get")
  end.

(** A computation inside a [try]: it raises or it returns. *)
#[global] Instance raising_ret : MRet (sum exn) := λ A x, inr x.

#[global] Instance raising_bind : MBind (sum exn) :=
  λ A B f m, match m with inl e => inl e | inr x => f x end.

(** [d[key]] on a stored dict whose [key] may be absent. *)
Definition subscript {A} (item : option A) (key : pyval) : exn + A :=
  match item with Some x => inr x | None => inl (KeyError key) end.

(** [repr] of a float and of a str are left to the runtime; everything
    else about [str()] / [repr()] on these values is spelled out. *)
Class PyRepr := {
  float_repr : spec_float → string;
  str_repr : string → string
}.

Fixpoint py_repr `{PyRepr} (v : pyval) : string :=
  match v with
  | PNone => "None"
  | PBool true => "True"
  | PBool false => "False"
  | PInt z => pretty z
  | PFloat f => float_repr f
  | PStr s => str_repr s
  | PList l =>
      "[" +:+ String.concat ", "
        ((fix items (l : list pyval) : list string :=
            match l with
            | [] => []
            | x :: l' => py_repr x :: items l'
            end) l) +:+ "]"
  | PDict d =>
      "{" +:+ String.concat ", "
        ((fix items (d : list (string * pyval)) : list string :=
            match d with
            | [] => []
            | (k, x) :: d' => (str_repr k +:+ ": " +:+ py_repr x) :: items d'
            end) d) +:+ "}"
  end.

(** [str(v)], as an f-string placeholder renders it. *)
Definition py_str `{PyRepr} (v : pyval) : string :=
  match v with PStr s => s | _ => py_repr v end.

(** [str(e)] *)
Definition exn_str `{PyRepr} (e : exn) : string :=
  match e with
  | KeyError k => py_repr k
  | AttributeError ty attr =>
      "'" +:+ ty +:+ "' object has no attribute '" +:+ attr +:+ "'"
  | ClientError msg => msg
  end.

(** An [Optional[str]] argument, as a value and inside an f-string. *)
Definition opt_val (a : option string) : pyval :=
  match a with Some s => PStr s | None => PNone end.

Definition opt_str (a : option string) : string :=
  match a with Some s => s | None => "None" end.

(** [a or d] for an [Optional[str]] [a] and a [str] [d]. *)
Definition str_or (a : option string) (d : string) : string :=
  match a with
  | Some s => if String.eqb s "" then d else s
  | None => d
  end.

(** ** The two stores *)

Module Login.
(** The keys a login challenge writes into the per-address record. *)
Record t := mk {
  expected_answer : Z;
  timestamp : Z;
  message : string;
  challenge_created : string
}.
End Login.

Module Twitter.
(** The dict under the ["twitter"] key of the per-address record;
    ["user_screen_name"] is absent until a verification succeeds. *)
Record t := mk {
  message : string;
  number : Z;
  user_screen_name : option pyval
}.
End Twitter.

(** [challenge_storage[address]]: the login keys are written together by
    one dict literal, the ["twitter"] key on its own. *)
Record challenge_record := {
  login : option Login.t;
  twitter : option Twitter.t
}.

Record state := {
  challenge_storage : gmap (option string) challenge_record;
  auth_tokens : gmap string (gmap string pyval)
}.

Definition empty_state : state :=
  {| challenge_storage := ∅; auth_tokens := ∅ |}.

Definition set_challenge_storage
    (cs : gmap (option string) challenge_record) (st : state) : state :=
  {| challenge_storage := cs; auth_tokens := auth_tokens st |}.

Definition set_auth_tokens
    (at' : gmap string (gmap string pyval)) (st : state) : state :=
  {| challenge_storage := challenge_storage st; auth_tokens := at' |}.

(** ** Environment *)

Record config := {
  DEFAULT_ADDRESS : string;
  RAPIDAPI_KEY : string
}.

(** What [datetime.now()] yields at the moment of the call. *)
Record clock := {
  now_timestamp : Z;      (* int(datetime.now().timestamp()) *)
  now_isoformat : string  (* datetime.now().isoformat() *)
}.

(** [random.randint(lo, hi)]: some integer of the closed range, picked
    by the generator's raw output. *)
Definition randint (lo hi raw : Z) : Z := lo + raw mod (hi - lo + 1).

Definition TRUSTGO_API_URL : string := "https://dev.mp.trustalabs.ai".

Record http_request := {
  req_method : string;
  req_url : string;
  req_headers : list (string * string);
  req_params : list (string * string);
  req_json : pyval
}.

(** The upstream's answer: a status with a decoded body, or an exception
    raised by the request or by [response.json()]. *)
Inductive http_reply : Type :=
| Reply (status : Z) (body : pyval)
| Raised (e : exn).

(** A coroutine with at most one suspension. The continuation runs on
    the store as it is when the reply arrives. *)
Inductive task (A : Type) : Type :=
| Done (st : state) (r : A)
| Await (st : state) (req : http_request)
        (k : http_reply → clock → state → state * A).
Arguments Done {A} st r.
Arguments Await {A} st req k.

(** [await response.json()]: the status and decoded body, unless the
    request raised. *)
Definition response_of (reply : http_reply) : exn + (Z * pyval) :=
  match reply with
  | Reply status body => inr (status, body)
  | Raised e => inl e
  end.

(** Running a task with nothing else scheduled in between. *)
Definition run {A} (t : task A) (reply : http_reply) (c : clock) : state * A :=
  match t with
  | Done st r => (st, r)
  | Await st _ k => k reply c st
  end.

(** The store at the suspension point (or at return). *)
Definition suspended {A} (t : task A) : state :=
  match t with Done st _ => st | Await st _ _ => st end.

(** [try: body  except Exception as e: return handler(str(e))], for a
    body that has not written to the stores when it raises. *)
Definition try_except `{PyRepr} (st : state) (handler : string → pyval)
    (body : exn + (state * pyval)) : state * pyval :=
  match body with
  | inr out => out
  | inl e => (st, handler (exn_str e))
  end.

(** ** Tool results *)

Definition error_result (msg : string) : pyval :=
  PDict [("status", PStr "error"); ("message", PStr msg)].

Section Results.
Context `{PyRepr}.

(** *** [trustgo_login] *)

Definition no_challenge_error : pyval :=
  error_result "No challenge found for this address. Please call get_trustgo_login_message first".

Definition challenge_mismatch_error : pyval :=
  error_result "Message does not match the challenge. Please use the message from get_trustgo_login_message".

Definition missing_answer_error : pyval :=
  error_result "Please provide the calculated number from the challenge".

Definition incorrect_answer_error (expected : Z) (got : number) : pyval :=
  error_result ("Incorrect calculation. Expected: " +:+ pretty expected
                +:+ ", Got: " +:+ py_str (number_val got)).

Definition signature_rejected_error (address signature : string) : pyval :=
  PDict [("status", PStr "error");
         ("message", PStr "Login failed: No token The signature is incorrect");
         ("address", PStr address);
         ("signature", PStr signature)].

Definition login_success (address : string) (token : pyval) (message : string) : pyval :=
  PDict [("status", PStr "success");
         ("message", PStr "TrustGo login successful");
         ("address", PStr address);
         ("token", token);
         ("login_message", PStr message)].

(** Both the upstream-failure branch and the [except] handler. *)
Definition login_failed (detail : string) : pyval :=
  error_result ("TrustGo login failed: " +:+ detail).

(** *** [get_trustgo_login_message] *)

Definition address_required_error : pyval :=
  error_result "Please provide address or set AGENT_ADDRESS environment variable".

Definition login_message_result (message : string) (num1 num2 num3 : Z) : pyval :=
  PDict [("status", PStr "success");
         ("message", PStr message);
         ("calculation_challenge",
          PDict [("description", PStr "Calculate: (num1 * num2) + (num3^2) - (num1 % num3)");
                 ("num1", PInt num1);
                 ("num2", PInt num2);
                 ("num3", PInt num3);
                 ("formula", PStr (pretty num1 +:+ " * " +:+ pretty num2 +:+ " + "
                                   +:+ pretty num3 +:+ "^2 - (" +:+ pretty num1
                                   +:+ " % " +:+ pretty num3 +:+ ")"))]);
         ("instructions", PStr "Please calculate the result and provide it in the 'number' parameter when calling trustgo_login")].

(** *** [query_ranked_bubbles] *)

Definition type_mapping : list (string * string) :=
  [("price", "price"); ("sigma_score", "sigma_score"); ("mindshare", "mindshare")].

Definition not_authenticated_error : pyval :=
  error_result "Please login to TrustGo first using trustgo_login".

Definition invalid_bubble_type_error : pyval :=
  error_result ("Invalid bubble type. Must be one of: "
                +:+ String.concat ", " (map fst type_mapping)).

Definition ranked_bubbles_success (bubble_type : string) (response_data : pyval)
    (now : string) : pyval :=
  PDict [("status", PStr "success");
         ("bubble_type", PStr bubble_type);
         ("data", response_data);
         ("timestamp", PStr now)].

Definition ranked_bubbles_failed (detail : string) : pyval :=
  error_result ("Failed to query ranked bubbles: " +:+ detail).

Definition query_failed (detail : string) : pyval :=
  error_result ("Query failed: " +:+ detail).

(** *** [login_twitter], [verify_twitter_signature] *)

Definition login_twitter_result (message : string) (number : Z) : pyval :=
  PDict [("status", PStr "success");
         ("message", PStr message);
         ("number", PInt number)].

Definition verification_mismatch_error (response_data : pyval) : pyval :=
  PDict [("status", PStr "error");
         ("message", PStr "Twitter signature verification failed");
         ("data", response_data);
         ("error", PStr "The message is not the same as the one generated by the tool")].

Definition twitter_verified (response_data user_screen_name : pyval) : pyval :=
  PDict [("status", PStr "success");
         ("message", PStr "Twitter signature verified successfully");
         ("data", response_data);
         ("user_screen_name", user_screen_name)].

Definition sign_failed (detail : string) : pyval :=
  error_result ("Sign failed: " +:+ detail).
End Results.

(** ** The tools *)

Section Service.
Context `{PyRepr} (cfg : config).

(** *** [get_trustgo_login_message] *)

(** [raw1], [raw2], [raw3] drive the three [random.randint] draws.
    The assignment to [challenge_storage[user_address]] installs a
    fresh dict holding the four login keys only. *)
Definition get_trustgo_login_message (address : option string)
    (c : clock) (raw1 raw2 raw3 : Z) (st : state) : state * pyval :=
  let user_address := str_or address (DEFAULT_ADDRESS cfg) in
  if String.eqb user_address "" then (st, address_required_error)
  else
    let timestamp := now_timestamp c in
    let message := "sign the message to login trustgo" +:+ pretty timestamp in
    let num1 := randint 1000000 9999999 raw1 in
    let num2 := randint 1000000 9999999 raw2 in
    let num3 := randint 100 999 raw3 in
    let expected_answer := (num1 * num2) + (num3 ^ 2) - (num1 mod num3) in
    let record :=
      {| login := Some {| Login.expected_answer := expected_answer;
                          Login.timestamp := timestamp;
                          Login.message := message;
                          Login.challenge_created := now_isoformat c |};
         twitter := None |} in
    (set_challenge_storage (<[Some user_address := record]> (challenge_storage st)) st,
     login_message_result message num1 num2 num3).

(** *** [trustgo_login] *)

Definition check_signed_message_request (address signature message : string)
    (invite_code invite_from : option string) : http_request :=
  {| req_method := "POST";
     req_url := TRUSTGO_API_URL +:+ "/accounts/check_signed_message";
     req_headers := [("accept", "application/json");
                     ("Content-Type", "application/json")];
     req_params := [];
     req_json :=
       PDict [("address", PStr address);
              ("message", PStr message);
              ("mode", PStr "evm");
              ("signature", PStr signature);
              ("invite_from", PDict [("code", opt_val invite_code);
                                     ("from", opt_val invite_from)])] |}.

(** [auth_tokens[address]] is created empty when missing, then the two
    keys are set. *)
Definition store_token (address : string) (token : pyval) (c : clock)
    (st : state) : state :=
  let entry := default ∅ (auth_tokens st !! address) in
  let entry := <["trustgo_token" := token]> entry in
  let entry := <["trustgo_login_time" := PStr (now_isoformat c)]> entry in
  set_auth_tokens (<[address := entry]> (auth_tokens st)) st.

(** Everything after [await response.json()]. The [and] of the status
    test does not look at the body unless the status is 200. *)
Definition trustgo_login_resume (address signature message : string)
    (reply : http_reply) (c : clock) (st : state) : state * pyval :=
  try_except st login_failed (
    '(status, response_data) ← response_of reply;
    success ← (if status =? 200
               then ok ← py_get response_data "success" PNone; mret (truthy ok)
               else mret false);
    if success : bool then
      data ← py_get response_data "data" (PDict []);
      token ← py_get data "token" (PStr "");
      if negb (truthy token)
      then mret (st, signature_rejected_error address signature)
      else mret (store_token address token c st,
                 login_success address token message)
    else
      detail ← py_get response_data "message" (PStr "Unknown error");
      mret (st, login_failed (py_str detail))).

Definition trustgo_login (address signature message : string)
    (invite_code invite_from : option string) (number : option number)
    (st : state) : task pyval :=
  match challenge_storage st !! Some address with
  | None => Done st no_challenge_error
  | Some challenge =>
      match login challenge with
      | None =>
          (* challenge["message"] raises KeyError *)
          Done st (login_failed (exn_str (KeyError (PStr "message"))))
      | Some ch =>
          if negb (String.eqb message (Login.message ch))
          then Done st challenge_mismatch_error
          else
            match number with
            | None => Done st missing_answer_error
            | Some n =>
                if negb (number_eq n (Login.expected_answer ch))
                then Done st (incorrect_answer_error (Login.expected_answer ch) n)
                else
                  Await
                    (set_challenge_storage
                       (delete (Some address) (challenge_storage st)) st)
                    (check_signed_message_request address signature message
                       invite_code invite_from)
                    (trustgo_login_resume address signature message)
            end
      end
  end.

(** *** [query_ranked_bubbles] *)

Definition ranked_bubbles_request (trustgo_token : pyval) (ty : string)
    : http_request :=
  {| req_method := "GET";
     req_url := TRUSTGO_API_URL +:+ "/agentgo/ranked_bubbles";
     req_headers := [("accept", "application/json");
                     ("Authorization", "TOKEN " +:+ py_str trustgo_token)];
     req_params := [("type", ty)];
     req_json := PNone |}.

Definition query_ranked_bubbles_resume (bubble_type : string)
    (reply : http_reply) (c : clock) (st : state) : state * pyval :=
  try_except st query_failed (
    '(status, response_data) ← response_of reply;
    if status =? 200
    then mret (st, ranked_bubbles_success bubble_type response_data (now_isoformat c))
    else
      detail ← py_get response_data "message" (PStr "Unknown error");
      mret (st, ranked_bubbles_failed (py_str detail))).

(** The lookup that precedes the gate: [None] unless the resolved
    address is non-empty and has an entry in [auth_tokens]. *)
Definition lookup_trustgo_token (query_address : string) (st : state) : pyval :=
  if String.eqb query_address "" then PNone
  else
    match auth_tokens st !! query_address with
    | Some entry => default PNone (entry !! "trustgo_token")
    | None => PNone
    end.

Definition query_ranked_bubbles (bubble_type : string) (address : option string)
    (st : state) : task pyval :=
  let query_address := str_or address (DEFAULT_ADDRESS cfg) in
  let trustgo_token := lookup_trustgo_token query_address st in
  if negb (truthy trustgo_token) then Done st not_authenticated_error
  else
    match assoc bubble_type type_mapping with
    | None => Done st invalid_bubble_type_error
    | Some ty =>
        Await st (ranked_bubbles_request trustgo_token ty)
          (query_ranked_bubbles_resume bubble_type)
    end.

(** *** [login_twitter] *)

(** The key is the [address] argument as given ([None] included); an
    existing record keeps its other keys. *)
Definition login_twitter (address : option string) (raw : Z) (st : state)
    : state * pyval :=
  let number := randint 1000000 9999999 raw in
  let message := "Using AgentGo to sign with twitter " +:+ opt_str address
                 +:+ " code is " +:+ pretty number in
  let slot := {| Twitter.message := message;
                 Twitter.number := number;
                 Twitter.user_screen_name := None |} in
  let cs := challenge_storage st in
  let record :=
    match cs !! address with
    | None => {| login := None; twitter := Some slot |}
    | Some r => {| login := login r; twitter := Some slot |}
    end in
  (set_challenge_storage (<[address := record]> cs) st,
   login_twitter_result message number).

(** *** [verify_twitter_signature] *)

Definition tweet_request (tweet_id : string) : http_request :=
  {| req_method := "GET";
     req_url := "https://twitter-api45.p.rapidapi.com/tweet.php";
     req_headers := [("x-rapidapi-key", RAPIDAPI_KEY cfg);
                     ("x-rapidapi-host", "twitter-api45.p.rapidapi.com")];
     req_params := [("id", tweet_id)];
     req_json := PNone |}.

Definition set_user_screen_name (address : option string) (r : challenge_record)
    (slot : Twitter.t) (user_screen_name : pyval) (st : state) : state :=
  let slot' := {| Twitter.message := Twitter.message slot;
                  Twitter.number := Twitter.number slot;
                  Twitter.user_screen_name := Some user_screen_name |} in
  set_challenge_storage
    (<[address := {| login := login r; twitter := Some slot' |}]>
       (challenge_storage st)) st.

(** The left operand of [!=] is evaluated before the stored message is
    looked up. *)
Definition verify_twitter_signature_resume (address : option string)
    (reply : http_reply) (c : clock) (st : state) : state * pyval :=
  try_except st sign_failed (
    '(_, response_data) ← response_of reply;
    text ← py_get response_data "text" PNone;
    r ← subscript (challenge_storage st !! address) (opt_val address);
    slot ← subscript (twitter r) (PStr "twitter");
    if negb (eq_str text (Twitter.message slot))
    then mret (st, verification_mismatch_error response_data)
    else
      author ← py_get response_data "author" PNone;
      user_screen_name ← py_get author "screen_name" PNone;
      mret (set_user_screen_name address r slot user_screen_name st,
            twitter_verified response_data user_screen_name)).

Definition verify_twitter_signature (tweet_id : string) (address : option string)
    (st : state) : task pyval :=
  Await st (tweet_request tweet_id) (verify_twitter_signature_resume address).
End Service.

(** ** Reading a result the way a client does *)

(** [v[k]] on a returned dict. *)
Definition get_item (v : pyval) (k : string) : option pyval :=
  match v with PDict d => assoc k d | _ => None end.

Definition get_int (v : pyval) (k : string) : option Z :=
  match get_item v k with Some (PInt z) => Some z | _ => None end.

(** Every integer that occurs anywhere inside a value. *)
Fixpoint ints_of (v : pyval) : list Z :=
  match v with
  | PInt z => [z]
  | PList l =>
      (fix go (l : list pyval) : list Z :=
         match l with [] => [] | x :: l' => ints_of x ++ go l' end) l
  | PDict d =>
      (fix go (d : list (string * pyval)) : list Z :=
         match d with [] => [] | (_, x) :: d' => ints_of x ++ go d' end) d
  | _ => []
  end.

(** Every dict key that occurs anywhere inside a value. *)
Fixpoint keys_of (v : pyval) : list string :=
  match v with
  | PList l =>
      (fix go (l : list pyval) : list string :=
         match l with [] => [] | x :: l' => keys_of x ++ go l' end) l
  | PDict d =>
      (fix go (d : list (string * pyval)) : list string :=
         match d with [] => [] | (k, x) :: d' => k :: keys_of x ++ go d' end) d
  | _ => []
  end.

(** The login challenge stored for an address, if any. *)
Definition login_challenge (st : state) (address : string) : option Login.t :=
  challenge_storage st !! Some address ≫= login.

(** The social-binding challenge stored under a key, if any. *)
Definition twitter_challenge (st : state) (address : option string)
    : option Twitter.t :=
  challenge_storage st !! address ≫= twitter.

(** The login-session token stored for an address, if any. *)
Definition session_token (st : state) (address : string) : option pyval :=
  auth_tokens st !! address ≫= (.!! "trustgo_token").

(** A rendering to evaluate the tools on concrete inputs; the inputs
    used below contain no float, and only plain identifiers are ever
    passed to [repr]. *)
Definition plain_repr : PyRepr :=
  {| float_repr := λ _, "nan"; str_repr := λ s, "'" +:+ s +:+ "'" |}.

(** ** Where a number can show in a result *)

(** Every float that occurs anywhere inside a value. *)
Fixpoint floats_of (v : pyval) : list spec_float :=
  match v with
  | PFloat f => [f]
  | PList l =>
      (fix go (l : list pyval) : list spec_float :=
         match l with [] => [] | x :: l' => floats_of x ++ go l' end) l
  | PDict d =>
      (fix go (d : list (string * pyval)) : list spec_float :=
         match d with [] => [] | (_, x) :: d' => floats_of x ++ go d' end) d
  | _ => []
  end.

(** Every piece of text inside a value: the str leaves and the keys. *)
Fixpoint strings_of (v : pyval) : list string :=
  match v with
  | PStr s => [s]
  | PList l =>
      (fix go (l : list pyval) : list string :=
         match l with [] => [] | x :: l' => strings_of x ++ go l' end) l
  | PDict d =>
      (fix go (d : list (string * pyval)) : list string :=
         match d with [] => [] | (k, x) :: d' => k :: strings_of x ++ go d' end) d
  | _ => []
  end.

(** [t] is a substring of [s]. *)
Definition occurs (t s : string) : Prop := ∃ before rest, s = before +:+ t +:+ rest.

Definition is_digit (c : Ascii.ascii) : bool :=
  (48 <=? Ascii.nat_of_ascii c)%nat && (Ascii.nat_of_ascii c <=? 57)%nat.

Fixpoint all_digits (s : string) : bool :=
  match s with
  | EmptyString => true
  | String c s' => is_digit c && all_digits s'
  end.

(** The longest run of digits in [s], when [cur] digits precede it. *)
Fixpoint digit_runs (cur : nat) (s : string) : nat :=
  match s with
  | EmptyString => cur
  | String c s' =>
      if is_digit c then digit_runs (S cur) s' else Nat.max cur (digit_runs 0 s')
  end.

(** The run of digits [s] ends with, when [cur] digits precede it. *)
Fixpoint tail_run (cur : nat) (s : string) : nat :=
  match s with
  | EmptyString => cur
  | String c s' => if is_digit c then tail_run (S cur) s' else tail_run 0 s'
  end.

(** ** Outcome classes *)

(** The four errors [trustgo_login] returns before it contacts the
    upstream. *)
Definition pre_upstream_error `{PyRepr} (r : pyval) : Prop :=
  r = no_challenge_error ∨ r = challenge_mismatch_error ∨
  r = missing_answer_error ∨ ∃ expected got, r = incorrect_answer_error expected got.

(** The login exchange succeeded: status 200 and a truthy ["success"]. *)
Definition upstream_success (status : Z) (response_data : pyval) : Prop :=
  status = 200 ∧
  ∃ d ok, response_data = PDict d ∧ assoc "success" d = Some ok ∧ truthy ok = true.

(** The token a login response carries: [""] when the ["data"] object
    or its ["token"] is missing. A ["data"] that is not an object
    carries none. *)
Definition upstream_token (response_data : pyval) : option pyval :=
  match get_item response_data "data" with
  | None => Some (PStr "")
  | Some (PDict data) => Some (default (PStr "") (assoc "token" data))
  | Some _ => None
  end.

(** The three dataset tags. *)
Definition dataset_tags : list string := ["price"; "sigma_score"; "mindshare"].

(** ** The remaining tools and helpers *)

Definition URL_PREFIX : string :=
  "https://host-server-web-frat-server-uvoggbicsv.ap-southeast-1.fcapp.run".

(** [v == z] for an int [z]: bools and floats compare by value. *)
Definition eq_int (v : pyval) (z : Z) : bool :=
  match v with
  | PInt k => k =? z
  | PBool b => (if b then 1 else 0) =? z
  | PFloat f => float_eq_int f z
  | _ => false
  end.

(** What a helper without a handler lets escape: the exceptions above,
    a [TypeError] or [IndexError] of the interpreter, or the
    [Exception(msg)] the helper raises itself. *)
Inductive escape : Type :=
| Escaped (e : exn)
| TypeError
| IndexError
| Failure (msg : string).

#[global] Instance escape_ret : MRet (sum escape) := λ A x, inr x.

#[global] Instance escape_bind : MBind (sum escape) :=
  λ A B f m, match m with inl e => inl e | inr x => f x end.

Definition lift {A} (m : exn + A) : escape + A :=
  match m with inl e => inl (Escaped e) | inr x => inr x end.

(** [v[key]] for a str [key]: only a dict can be indexed by it. *)
Definition py_item (v : pyval) (key : string) : escape + pyval :=
  match v with
  | PDict d =>
      match assoc key d with
      | Some x => inr x
      | None => inl (Escaped (KeyError (PStr key)))
      end
  | _ => inl TypeError
  end.

(** [Some t] when [s] is [p] followed by [t]. *)
Fixpoint strip_prefix (p s : string) : option string :=
  match p, s with
  | EmptyString, _ => Some s
  | String a p', String b s' => if Ascii.eqb a b then strip_prefix p' s' else None
  | String _ _, EmptyString => None
  end.

(** The text before and after the leftmost occurrence of [sep]. *)
Fixpoint cut (sep s : string) : option (string * string) :=
  match strip_prefix sep s with
  | Some rest => Some (EmptyString, rest)
  | None =>
      match s with
      | EmptyString => None
      | String c s' =>
          match cut sep s' with
          | Some (before, rest) => Some (String c before, rest)
          | None => None
          end
      end
  end.

(** [s.split(sep)[1]]: the text between the first and the second
    occurrence of [sep]; an [IndexError] when [sep] does not occur. *)
Definition split_item1 (sep s : string) : escape + string :=
  match cut sep s with
  | None => inl IndexError
  | Some (_, rest) =>
      match cut sep rest with
      | Some (item, _) => inr item
      | None => inr rest
      end
  end.

(** [v.split(sep)[1]] on a value: only a str has the method. *)
Definition py_split_item1 (v : pyval) (sep : string) : escape + pyval :=
  match v with
  | PStr s => item ← split_item1 sep s; mret (PStr item)
  | _ => inl (Escaped (AttributeError (type_name v) "split"))
  end.

Section Helpers.
Context `{PyRepr}.

(** *** [get_auth_token] *)

Definition get_token_request (access_key secret_access_key : string)
    : http_request :=
  {| req_method := "POST";
     req_url := URL_PREFIX +:+ "/service/openapi/getToken";
     req_headers := [("Content-Type", "application/json; charset=utf-8")];
     req_params := [];
     req_json := PDict [("secretAccessKey", PStr secret_access_key);
                        ("accessKey", PStr access_key)] |}.

(** No handler here: what the body raises escapes to the caller. *)
Definition get_auth_token_resume (reply : http_reply) : escape + pyval :=
  '(_, response_data) ← lift (response_of reply);
  code ← lift (py_get response_data "code" PNone);
  if eq_int code 0 then
    data ← py_item response_data "data";
    authorization_token ← py_item data "authorizationToken";
    py_split_item1 authorization_token "Bearer "
  else
    detail ← lift (py_get response_data "message" (PStr "Unknown error"));
    inl (Failure ("Failed to get token: " +:+ py_str detail)).

Definition get_auth_token (access_key secret_access_key : string) (st : state)
    : task (escape + pyval) :=
  Await st (get_token_request access_key secret_access_key)
    (λ reply _ st', (st', get_auth_token_resume reply)).

(** *** [query_agent_score] *)

Definition agent_score_request (slug token : string) : http_request :=
  {| req_method := "GET";
     req_url := URL_PREFIX +:+ "/service/openapi/queryAgentGoScore?slug=" +:+ slug;
     req_headers := [("accept", "application/json");
                     ("Authorization", "Bearer " +:+ token)];
     req_params := [];
     req_json := PNone |}.

Definition query_agent_score_resume (reply : http_reply) : escape + pyval :=
  '(_, response_data) ← lift (response_of reply);
  code ← lift (py_get response_data "code" PNone);
  if eq_int code 0 then py_item response_data "data"
  else
    detail ← lift (py_get response_data "message" (PStr "Unknown error"));
    inl (Failure ("Query failed: " +:+ py_str detail)).

Definition query_agent_score (slug token : string) (st : state)
    : task (escape + pyval) :=
  Await st (agent_score_request slug token)
    (λ reply _ st', (st', query_agent_score_resume reply)).

(** *** [claim_sigma_attestation] *)

Definition claim_success (data : pyval) : pyval :=
  PDict [("status", PStr "success");
         ("message", PStr "Sigma attestation claimed successfully");
         ("data", data)].

Definition claim_rejected (detail : string) : pyval :=
  error_result ("Failed to claim sigma attestation: " +:+ detail).

Definition claim_failed (detail : string) : pyval :=
  error_result ("Claim failed: " +:+ detail).

(** [token] and [slug] carry no annotation; the f-strings render
    whatever is passed. *)
Definition attest_calldata_request (token slug : pyval) : http_request :=
  {| req_method := "GET";
     req_url := TRUSTGO_API_URL
                +:+ "/accounts/attest_calldata?attest_type=sigma&slug="
                +:+ py_str slug;
     req_headers := [("accept", "application/json");
                     ("Authorization", "TOKEN " +:+ py_str token)];
     req_params := [];
     req_json := PNone |}.

Definition claim_sigma_attestation_resume (reply : http_reply) (c : clock)
    (st : state) : state * pyval :=
  try_except st claim_failed (
    '(_, response_data) ← response_of reply;
    code ← py_get response_data "code" PNone;
    if eq_int code 0 then
      data ← py_get response_data "data" (PDict []);
      mret (st, claim_success data)
    else
      detail ← py_get response_data "message" (PStr "Unknown error");
      mret (st, claim_rejected (py_str detail))).

(** The [address] argument is accepted and not used. *)
Definition claim_sigma_attestation (token slug : pyval) (address : option string)
    (st : state) : task pyval :=
  Await st (attest_calldata_request token slug) claim_sigma_attestation_resume.

(** *** [query_price_bubble_info], [query_sigma_score_bubble_info] *)

(** [await inner] followed by [after], which sees the clock and the
    store of the moment [inner] returns. *)
Definition and_then {A B} (inner : task A)
    (after : clock → state → A → state * B) (c0 : clock) : task B :=
  match inner with
  | Done st r => let out := after c0 st r in Done out.1 out.2
  | Await st req k =>
      Await st req (λ reply c st', let out := k reply c st' in after c out.1 out.2)
  end.

Definition price_bubble_result (query_target : string) (data update_time : pyval)
    : pyval :=
  PDict [("status", PStr "success");
         ("query_target", PStr query_target);
         ("price_bubble_data", data);
         ("update_time", update_time)].

Definition sigma_bubble_result (category : string) (data update_time : pyval)
    : pyval :=
  PDict [("status", PStr "success");
         ("category", PStr category);
         ("sigma_bubble_data", data);
         ("update_time", update_time)].

(** The part both wrappers share: a successful inner result is
    reshaped by [shape], any other is handed on as it is. *)
Definition reshape_bubbles (shape : pyval → pyval → pyval) (c : clock)
    (st : state) (result : pyval) : state * pyval :=
  try_except st query_failed (
    status ← subscript (get_item result "status") (PStr "status");
    if eq_str status "success" then
      data ← py_get result "data" (PDict []);
      update_time ← py_get result "timestamp" (PStr (now_isoformat c));
      mret (st, shape data update_time)
    else mret (st, result)).

(** The wrappers call [query_ranked_bubbles] as the coroutine function
    it is defined as. *)
Definition query_price_bubble_info (cfg : config) (agent_slug address : option string)
    (c0 : clock) (st : state) : task pyval :=
  and_then (query_ranked_bubbles cfg "price" address st)
    (reshape_bubbles (price_bubble_result (str_or agent_slug "Overall Market")))
    c0.

Definition query_sigma_score_bubble_info (cfg : config)
    (category address : option string) (c0 : clock) (st : state) : task pyval :=
  and_then (query_ranked_bubbles cfg "sigma_score" address st)
    (reshape_bubbles (sigma_bubble_result (str_or category "All")))
    c0.
End Helpers.

(** A tool result as every caller may rely on it: a dict whose
    ["status"] is ["success"] or ["error"], with a str ["message"] in
    the second case. *)
Definition well_formed_result (r : pyval) : Prop :=
  get_item r "status" = Some (PStr "success") ∨
  (get_item r "status" = Some (PStr "error") ∧
   ∃ msg, get_item r "message" = Some (PStr msg)).

(** ** Sample inputs *)

Module Sample.
Definition cfg : config := {| DEFAULT_ADDRESS := ""; RAPIDAPI_KEY := "" |}.

Definition noon : clock :=
  {| now_timestamp := 1700000000; now_isoformat := "2023-11-14T22:13:20" |}.

Definition later : clock :=
  {| now_timestamp := 1700000060; now_isoformat := "2023-11-14T22:14:20" |}.

Definition alice : string := "0xABC".

(** [get_trustgo_login_message("0xABC")] on the empty stores, drawing
    1000000, 1000000 and 100. *)
Definition issued : state * pyval :=
  get_trustgo_login_message cfg (Some alice) noon 0 0 0 empty_state.

(** [login_twitter("0xABC")] on the empty stores, drawing 1000005. *)
Definition bound : state * pyval :=
  login_twitter (Some alice) 5 empty_state.

(** A second [get_trustgo_login_message("0xABC")] within the same
    second, drawing 1000001, 1000001 and 101. *)
Definition reissued : state * pyval :=
  get_trustgo_login_message cfg (Some alice) noon 1 1 1 issued.1.

(** A store in which [alice] holds a login-session token. *)
Definition logged_in : state :=
  store_token alice (PStr "tok-1") noon empty_state.
End Sample.

(** ** Sample runs *)

Module Scenario.
Definition message : string := "sign the message to login trustgo1700000000".

Definition answer : number := NInt 1000000010000.

(** An upstream answer that accepts the login, and one that does not. *)
Definition accepted : http_reply :=
  Reply 200 (PDict [("success", PBool true);
                    ("data", PDict [("token", PStr "tok-1")])]).

Definition refused : list (string * pyval) :=
  [("success", PBool false); ("message", PStr "signature mismatch")].

(** [alice] with a login challenge and a social-binding challenge. *)
Definition both : state := (login_twitter (Some Sample.alice) 5 Sample.issued.1).1.

(** The store while [alice]'s login waits for the upstream. *)
Definition waiting : state :=
  set_challenge_storage
    (delete (Some Sample.alice) (challenge_storage Sample.issued.1)) Sample.issued.1.

(** The whole login of [alice], accepted by the upstream. *)
Definition logged : state * pyval :=
  run (@trustgo_login plain_repr Sample.alice "0xsig" message
         (Some "8ZRT9G1") (Some "twitter") (Some answer) Sample.issued.1)
    accepted Sample.later.

(** A credential answer carrying a bearer token. *)
Definition credentials : list (string * pyval) :=
  [("code", PInt 0);
   ("data", PDict [("authorizationToken", PStr "Bearer abc123")])].

(** A post that carries the message handed to [alice]. *)
Definition post : list (string * pyval) :=
  [("text", PStr "Using AgentGo to sign with twitter 0xABC code is 1000005");
   ("author", PDict [("screen_name", PStr "alice_x")])].
End Scenario.

(** ** Basic facts *)

Lemma randint_range lo hi raw : lo ≤ hi → lo ≤ randint lo hi raw ≤ hi.
Proof.
  intros Hle. unfold randint.
  pose proof (Z.mod_pos_bound raw (hi - lo + 1)). lia.
Qed.

Lemma randint_onto lo hi n : lo ≤ n ≤ hi → randint lo hi (n - lo) = n.
Proof.
  intros Hn. unfold randint. rewrite Z.mod_small by lia. lia.
Qed.

Lemma eqb_false_ne (s t : string) : String.eqb s t = false ↔ s ≠ t.
Proof. apply String.eqb_neq. Qed.

Lemma eq_str_true v s : eq_str v s = true ↔ v = PStr s.
Proof.
  destruct v; simpl; try (split; [discriminate | congruence]).
  rewrite String.eqb_eq. split; congruence.
Qed.

Lemma eq_str_false_diff t s : t ≠ s → eq_str (PStr t) s = false.
Proof. intros Hne. simpl. by apply String.eqb_neq. Qed.

Lemma number_eq_int k z : number_eq (NInt k) z = true ↔ k = z.
Proof. simpl. apply Z.eqb_eq. Qed.

Lemma login_message_inj (t1 t2 : Z) :
  "sign the message to login trustgo" +:+ pretty t1
  = "sign the message to login trustgo" +:+ pretty t2 → t1 = t2.
Proof. intros Heq. simpl in Heq. injection Heq as Heq. by apply (inj pretty). Qed.

(** ** Digits in a text *)

Lemma append_cons a s t : String a s +:+ t = String a (s +:+ t).
Proof. reflexivity. Qed.

Lemma append_nil_l t : EmptyString +:+ t = t.
Proof. reflexivity. Qed.

Lemma length_append a b :
  String.length (a +:+ b) = (String.length a + String.length b)%nat.
Proof.
  induction a as [|c a IH]; [reflexivity |].
  rewrite append_cons. simpl. by rewrite IH.
Qed.

Lemma append_assoc a b c : (a +:+ b) +:+ c = a +:+ b +:+ c.
Proof.
  induction a as [|x a IH]; [reflexivity |].
  rewrite !append_cons. by rewrite IH.
Qed.

Lemma all_digits_append a b :
  all_digits (a +:+ b) = all_digits a && all_digits b.
Proof.
  induction a as [|c a IH]; [reflexivity |].
  rewrite append_cons. simpl. by rewrite IH, andb_assoc.
Qed.

Lemma digit_runs_ge cur s : (cur ≤ digit_runs cur s)%nat.
Proof.
  revert cur. induction s as [|c s IH]; intros cur; simpl; [lia |].
  destruct (is_digit c); [specialize (IH (S cur)) |]; lia.
Qed.

Lemma digit_runs_digits cur d b :
  all_digits d = true →
  digit_runs cur (d +:+ b) = digit_runs (cur + String.length d) b.
Proof.
  revert cur. induction d as [|c d IH]; intros cur Hd.
  - rewrite append_nil_l. simpl. f_equal. lia.
  - rewrite append_cons. simpl in *. apply andb_prop in Hd as [-> Hd].
    rewrite (IH _ Hd). f_equal. lia.
Qed.

Lemma digit_runs_all cur d :
  all_digits d = true → digit_runs cur d = (cur + String.length d)%nat.
Proof.
  revert cur. induction d as [|c d IH]; intros cur Hd; simpl in *; [lia |].
  apply andb_prop in Hd as [-> Hd]. rewrite (IH _ Hd). lia.
Qed.

Lemma tail_run_all cur d :
  all_digits d = true → tail_run cur d = (cur + String.length d)%nat.
Proof.
  revert cur. induction d as [|c d IH]; intros cur Hd; simpl in *; [lia |].
  apply andb_prop in Hd as [-> Hd]. rewrite (IH _ Hd). lia.
Qed.

Lemma digit_runs_append cur a b :
  digit_runs cur (a +:+ b)
  = Nat.max (digit_runs cur a) (digit_runs (tail_run cur a) b).
Proof.
  revert cur. induction a as [|c a IH]; intros cur.
  - rewrite append_nil_l. simpl. pose proof (digit_runs_ge cur b). lia.
  - rewrite append_cons. simpl. destruct (is_digit c); rewrite IH; lia.
Qed.

Lemma occurs_digit_run t s cur :
  occurs t s → all_digits t = true → (String.length t ≤ digit_runs cur s)%nat.
Proof.
  intros (before & rest & ->) Ht. revert cur.
  induction before as [|c before IH]; intros cur.
  - rewrite append_nil_l, (digit_runs_digits _ _ _ Ht).
    pose proof (digit_runs_ge (cur + String.length t) rest). lia.
  - rewrite append_cons. simpl. destruct (is_digit c).
    + apply IH.
    + specialize (IH 0%nat). lia.
Qed.

Lemma pretty_N_char_digit x : is_digit (pretty_N_char x) = true.
Proof. unfold pretty_N_char. by repeat case_match. Qed.

(** What [pretty_N_go] puts in front of [s]: digits only, as many as
    the magnitude of [x] asks for. *)
Lemma pretty_N_go_shape (x : N) (s : string) :
  ∃ d, pretty_N_go x s = d +:+ s ∧ all_digits d = true ∧
    (∀ k : nat, (x < 10 ^ N.of_nat k)%N → (String.length d ≤ k)%nat) ∧
    (∀ k : nat, (10 ^ N.of_nat k ≤ x)%N → (k < String.length d)%nat).
Proof.
  revert s. induction (N.lt_wf_0 x) as [x _ IH]; intros s.
  destruct (decide (x = 0)%N) as [->|Hx].
  - exists EmptyString. rewrite pretty_N_go_0. repeat split; simpl; [lia |].
    intros k Hk. pose proof (N.pow_nonzero 10 (N.of_nat k)). lia.
  - rewrite pretty_N_go_step by lia.
    destruct (IH (x `div` 10)%N) with (s := String (pretty_N_char (x `mod` 10)) s)
      as (d & -> & Hd & Hup & Hlow).
    { apply N.div_lt; lia. }
    exists (d +:+ String (pretty_N_char (x `mod` 10)) EmptyString).
    split; [by rewrite append_assoc |].
    split; [rewrite all_digits_append, Hd; simpl; by rewrite pretty_N_char_digit |].
    rewrite length_append. simpl. split.
    + intros [|k] Hk; [simpl in Hk; lia |].
      rewrite Nat2N.inj_succ, N.pow_succ_r' in Hk.
      assert (String.length d ≤ k)%nat; [|lia].
      apply Hup. apply N.Div0.div_lt_upper_bound; lia.
    + intros [|k] Hk; [lia |].
      rewrite Nat2N.inj_succ, N.pow_succ_r' in Hk.
      assert (k < String.length d)%nat; [|lia].
      apply Hlow. apply N.div_le_lower_bound; lia.
Qed.

Lemma append_empty_r s : s +:+ EmptyString = s.
Proof.
  induction s as [|a s IH]; [reflexivity |].
  rewrite append_cons. by rewrite IH.
Qed.

Lemma pow10_N_Z (k : nat) : Z.of_N (10 ^ N.of_nat k) = 10 ^ Z.of_nat k.
Proof. by rewrite N2Z.inj_pow, nat_N_Z. Qed.

(** The decimal text of a positive integer: digits only, as many as
    its magnitude asks for. *)
Lemma pretty_pos_shape (p : positive) :
  all_digits (pretty (Z.pos p)) = true ∧
  (∀ k : nat, Z.pos p < 10 ^ Z.of_nat k → (String.length (pretty (Z.pos p)) ≤ k)%nat) ∧
  (∀ k : nat, 10 ^ Z.of_nat k ≤ Z.pos p → (k < String.length (pretty (Z.pos p)))%nat).
Proof.
  change (pretty (Z.pos p)) with (pretty_N_go (N.pos p) EmptyString).
  destruct (pretty_N_go_shape (N.pos p) EmptyString) as (d & -> & Hd & Hup & Hlow).
  rewrite append_empty_r. split; [exact Hd |]. split; intros k Hk.
  - apply Hup. apply N2Z.inj_lt. by rewrite pow10_N_Z.
  - apply Hlow. apply N2Z.inj_le. by rewrite pow10_N_Z.
Qed.

Lemma pretty_runs (z : Z) (k : nat) :
  (1 ≤ k)%nat → Z.abs z < 10 ^ Z.of_nat k →
  (digit_runs 0 (pretty z) ≤ k)%nat ∧ (tail_run 0 (pretty z) ≤ k)%nat.
Proof.
  intros Hk Hz. destruct z as [|p|p].
  - change (pretty 0) with "0". simpl. lia.
  - destruct (pretty_pos_shape p) as (Hd & Hup & _).
    rewrite (digit_runs_all _ _ Hd), (tail_run_all _ _ Hd).
    specialize (Hup k Hz). lia.
  - change (pretty (Z.neg p)) with ("-" +:+ pretty (Z.pos p)).
    destruct (pretty_pos_shape p) as (Hd & Hup & _).
    rewrite append_cons, append_nil_l. simpl.
    rewrite (digit_runs_all _ _ Hd), (tail_run_all _ _ Hd).
    specialize (Hup k Hz). lia.
Qed.

Lemma pretty_long (z : Z) (k : nat) :
  10 ^ Z.of_nat k ≤ z →
  all_digits (pretty z) = true ∧ (k < String.length (pretty z))%nat.
Proof.
  intros Hz. destruct z as [|p|p].
  - pose proof (Z.pow_pos_nonneg 10 (Z.of_nat k)). lia.
  - destruct (pretty_pos_shape p) as (Hd & _ & Hlow). auto.
  - pose proof (Z.pow_pos_nonneg 10 (Z.of_nat k)). lia.
Qed.

(** A text whose digit runs are shorter than the decimal text of [z]
    does not contain it. *)
Lemma short_runs_exclude (z : Z) (k : nat) (s : string) :
  10 ^ Z.of_nat k ≤ z → (digit_runs 0 s ≤ k)%nat → ¬ occurs (pretty z) s.
Proof.
  intros Hz Hs Hocc. destruct (pretty_long z k Hz) as [Hd Hlen].
  pose proof (occurs_digit_run _ _ 0%nat Hocc Hd). lia.
Qed.

Lemma formula_runs (num1 num2 num3 : Z) :
  Z.abs num1 < 10 ^ 7 → Z.abs num2 < 10 ^ 7 → Z.abs num3 < 10 ^ 7 →
  (digit_runs 0
     (pretty num1 +:+ " * " +:+ pretty num2 +:+ " + " +:+ pretty num3
      +:+ "^2 - (" +:+ pretty num1 +:+ " % " +:+ pretty num3 +:+ ")") ≤ 7)%nat.
Proof.
  intros H1 H2 H3.
  destruct (pretty_runs num1 7 ltac:(lia) H1) as [R1 T1].
  destruct (pretty_runs num2 7 ltac:(lia) H2) as [R2 T2].
  destruct (pretty_runs num3 7 ltac:(lia) H3) as [R3 T3].
  repeat (rewrite digit_runs_append; simpl). lia.
Qed.

Lemma expected_answer_long num1 num2 num3 :
  1000000 ≤ num1 ≤ 9999999 → 1000000 ≤ num2 ≤ 9999999 → 100 ≤ num3 ≤ 999 →
  10 ^ Z.of_nat 12 ≤ (num1 * num2) + (num3 ^ 2) - (num1 mod num3).
Proof.
  intros H1 H2 H3.
  pose proof (Z.mod_pos_bound num1 num3).
  assert (100 * 100 ≤ num3 * num3) by (apply Z.mul_le_mono_nonneg; lia).
  assert (1000000 * 1000000 ≤ num1 * num2) by (apply Z.mul_le_mono_nonneg; lia).
  change (10 ^ Z.of_nat 12) with 1000000000000.
  replace (num3 ^ 2) with (num3 * num3) by (by rewrite Z.pow_2_r). lia.
Qed.

(** ** The login challenge generator *)

Section Generator.
Context (cfg : config).

(** A challenge is produced exactly when an address resolves. *)
Lemma login_message_success_iff address c raw1 raw2 raw3 st :
  get_item (get_trustgo_login_message cfg address c raw1 raw2 raw3 st).2 "status"
    = Some (PStr "success")
  ↔ str_or address (DEFAULT_ADDRESS cfg) ≠ "".
Proof.
  unfold get_trustgo_login_message.
  destruct (String.eqb_spec (str_or address (DEFAULT_ADDRESS cfg)) "") as [->|Hne].
  - simpl. split; [discriminate | congruence].
  - simpl. split; [intros _; exact Hne | reflexivity].
Qed.

(** What a successful call leaves behind and returns, in terms of the
    three draws. *)
Lemma login_message_issue address c raw1 raw2 raw3 st :
  str_or address (DEFAULT_ADDRESS cfg) ≠ "" →
  let num1 := randint 1000000 9999999 raw1 in
  let num2 := randint 1000000 9999999 raw2 in
  let num3 := randint 100 999 raw3 in
  let message := "sign the message to login trustgo" +:+ pretty (now_timestamp c) in
  get_trustgo_login_message cfg address c raw1 raw2 raw3 st
  = (set_challenge_storage
       (<[Some (str_or address (DEFAULT_ADDRESS cfg)) :=
            {| login := Some {| Login.expected_answer :=
                                  (num1 * num2) + (num3 ^ 2) - (num1 mod num3);
                                Login.timestamp := now_timestamp c;
                                Login.message := message;
                                Login.challenge_created := now_isoformat c |};
               twitter := None |}]> (challenge_storage st)) st,
     login_message_result message num1 num2 num3).
Proof.
  intros Hne. unfold get_trustgo_login_message.
  apply String.eqb_neq in Hne. by rewrite Hne.
Qed.

(** C3: for every challenge produced by [get_trustgo_login_message],
    the stored [expected_answer] equals
    [(num1 * num2) + (num3 ^ 2) - (num1 mod num3)] recomputed from the
    three operands read back from the result, with [num1], [num2] in
    [1000000, 9999999] and [num3] in [100, 999]. *)
Theorem expected_answer_roundtrip address c raw1 raw2 raw3 st st' result :
  get_trustgo_login_message cfg address c raw1 raw2 raw3 st = (st', result) →
  get_item result "status" = Some (PStr "success") →
  ∃ cc num1 num2 num3 ch,
    get_item result "calculation_challenge" = Some cc ∧
    get_int cc "num1" = Some num1 ∧
    get_int cc "num2" = Some num2 ∧
    get_int cc "num3" = Some num3 ∧
    login_challenge st' (str_or address (DEFAULT_ADDRESS cfg)) = Some ch ∧
    Login.expected_answer ch = (num1 * num2) + (num3 ^ 2) - (num1 mod num3) ∧
    1000000 ≤ num1 ≤ 9999999 ∧
    1000000 ≤ num2 ≤ 9999999 ∧
    100 ≤ num3 ≤ 999.
Proof.
  intros Hrun Hok.
  assert (Hne : str_or address (DEFAULT_ADDRESS cfg) ≠ "").
  { apply (login_message_success_iff address c raw1 raw2 raw3 st).
    by rewrite Hrun. }
  rewrite (login_message_issue _ _ _ _ _ _ Hne) in Hrun.
  injection Hrun as <- <-.
  eexists _, (randint 1000000 9999999 raw1), (randint 1000000 9999999 raw2),
    (randint 100 999 raw3), _.
  split; [reflexivity |].
  repeat (split; [reflexivity |]).
  split.
  { unfold login_challenge. simpl. by rewrite lookup_insert_eq. }
  split; [reflexivity |].
  repeat split; apply randint_range; lia.
Qed.

(** Every operand triple of the stated ranges is a possible draw. *)
Lemma every_triple_is_drawn address c st num1 num2 num3 :
  str_or address (DEFAULT_ADDRESS cfg) ≠ "" →
  1000000 ≤ num1 ≤ 9999999 → 1000000 ≤ num2 ≤ 9999999 → 100 ≤ num3 ≤ 999 →
  ∃ raw1 raw2 raw3,
    (get_trustgo_login_message cfg address c raw1 raw2 raw3 st).2
    = login_message_result
        ("sign the message to login trustgo" +:+ pretty (now_timestamp c))
        num1 num2 num3.
Proof.
  intros Hne H1 H2 H3.
  exists (num1 - 1000000), (num2 - 1000000), (num3 - 100).
  rewrite (login_message_issue _ _ _ _ _ _ Hne). simpl.
  by rewrite !randint_onto.
Qed.

Lemma expected_answer_large num1 num2 num3 :
  1000000 ≤ num1 ≤ 9999999 → 1000000 ≤ num2 ≤ 9999999 → 100 ≤ num3 ≤ 999 →
  10000000 ≤ (num1 * num2) + (num3 ^ 2) - (num1 mod num3).
Proof.
  intros H1 H2 H3.
  pose proof (Z.mod_pos_bound num1 num3).
  assert (0 ≤ num3 ^ 2) by (apply Z.pow_nonneg; lia).
  assert (1000000 * 1000000 ≤ num1 * num2) by (apply Z.mul_le_mono_nonneg; lia).
  lia.
Qed.

(** C8: the result of a successful [get_trustgo_login_message] carries
    the three operands and the formula description, and nothing in it
    is the stored [expected_answer]: no key of that name, no integer of
    that value, no float at all, and no text that contains its decimal
    digits. The message text is the fixed sentence followed by the
    timestamp; it is covered too as long as the timestamp has at most
    twelve digits. *)
Theorem login_message_hides_answer address c raw1 raw2 raw3 st st' result :
  get_trustgo_login_message cfg address c raw1 raw2 raw3 st = (st', result) →
  get_item result "status" = Some (PStr "success") →
  ∃ cc ch,
    login_challenge st' (str_or address (DEFAULT_ADDRESS cfg)) = Some ch ∧
    get_item result "calculation_challenge" = Some cc ∧
    get_item cc "num1" = Some (PInt (randint 1000000 9999999 raw1)) ∧
    get_item cc "num2" = Some (PInt (randint 1000000 9999999 raw2)) ∧
    get_item cc "num3" = Some (PInt (randint 100 999 raw3)) ∧
    get_item cc "description"
      = Some (PStr "Calculate: (num1 * num2) + (num3^2) - (num1 % num3)") ∧
    keys_of result
      = ["status"; "message"; "calculation_challenge"; "description";
         "num1"; "num2"; "num3"; "formula"; "instructions"] ∧
    ("expected_answer" ∉ keys_of result) ∧
    ((Login.expected_answer ch) ∉ ints_of result) ∧
    floats_of result = [] ∧
    get_item result "message"
      = Some (PStr ("sign the message to login trustgo" +:+ pretty (now_timestamp c))) ∧
    (∀ s, s ∈ strings_of result →
       s = "sign the message to login trustgo" +:+ pretty (now_timestamp c) ∨
       ¬ occurs (pretty (Login.expected_answer ch)) s) ∧
    (Z.abs (now_timestamp c) < 10 ^ 12 →
     ∀ s, s ∈ strings_of result →
       ¬ occurs (pretty (Login.expected_answer ch)) s).
Proof.
  intros Hrun Hok.
  assert (Hne : str_or address (DEFAULT_ADDRESS cfg) ≠ "").
  { apply (login_message_success_iff address c raw1 raw2 raw3 st).
    by rewrite Hrun. }
  rewrite (login_message_issue _ _ _ _ _ _ Hne) in Hrun.
  injection Hrun as <- <-.
  eexists _, _.
  split.
  { unfold login_challenge. simpl. by rewrite lookup_insert_eq. }
  repeat (split; [reflexivity |]).
  pose proof (randint_range 1000000 9999999 raw1 ltac:(lia)) as H1.
  pose proof (randint_range 1000000 9999999 raw2 ltac:(lia)) as H2.
  pose proof (randint_range 100 999 raw3 ltac:(lia)) as H3.
  pose proof (expected_answer_long _ _ _ H1 H2 H3) as Hlong.
  split.
  { simpl. rewrite !elem_of_cons, elem_of_nil. intros Hin.
    repeat (destruct Hin as [Hin | Hin]; [discriminate Hin |]). exact Hin. }
  split.
  { simpl. change (10 ^ Z.of_nat 12) with 1000000000000 in Hlong.
    rewrite !elem_of_cons, elem_of_nil. intros Hin.
    repeat (destruct Hin as [Hin | Hin]; [lia |]). exact Hin. }
  split; [reflexivity |].
  split; [reflexivity |].
  assert (Hothers : ∀ s,
            s ∈ ["status"; "success"; "message"; "calculation_challenge";
                 "description";
                 "Calculate: (num1 * num2) + (num3^2) - (num1 % num3)";
                 "num1"; "num2"; "num3"; "formula";
                 pretty (randint 1000000 9999999 raw1) +:+ " * "
                 +:+ pretty (randint 1000000 9999999 raw2) +:+ " + "
                 +:+ pretty (randint 100 999 raw3) +:+ "^2 - ("
                 +:+ pretty (randint 1000000 9999999 raw1) +:+ " % "
                 +:+ pretty (randint 100 999 raw3) +:+ ")";
                 "instructions";
                 "Please calculate the result and provide it in the 'number' parameter when calling trustgo_login"] →
            (digit_runs 0 s ≤ 12)%nat).
  { intros s. rewrite !elem_of_cons, elem_of_nil. intros Hin.
    repeat (destruct Hin as [-> | Hin];
            [lazymatch goal with
             | |- context [randint] => idtac
             | _ => vm_compute; lia
             end |]);
      [|done].
    pose proof (formula_runs (randint 1000000 9999999 raw1)
                  (randint 1000000 9999999 raw2) (randint 100 999 raw3)
                  ltac:(lia) ltac:(lia) ltac:(lia)). lia. }
  split.
  - intros s Hin. simpl in Hin. rewrite !elem_of_cons, elem_of_nil in Hin.
    destruct (decide (s = "sign the message to login trustgo"
                          +:+ pretty (now_timestamp c))) as [Hmsg | Hmsg];
      [by left |].
    right. apply (short_runs_exclude _ 12 _ Hlong), Hothers.
    rewrite !elem_of_cons, elem_of_nil. tauto.
  - intros Hclock s Hin. simpl in Hin. rewrite !elem_of_cons, elem_of_nil in Hin.
    apply (short_runs_exclude _ 12 _ Hlong).
    destruct (decide (s = "sign the message to login trustgo"
                          +:+ pretty (now_timestamp c))) as [-> | Hmsg].
    + rewrite digit_runs_append. simpl.
      destruct (pretty_runs (now_timestamp c) 12 ltac:(lia) Hclock). lia.
    + apply Hothers. rewrite !elem_of_cons, elem_of_nil. tauto.
Qed.
End Generator.

(** Exposes the body of a [try], and splits on its innermost test. *)
Ltac unfold_try :=
  unfold try_except, response_of, subscript;
  cbv [mbind raising_bind mret raising_ret].

Ltac case_inner :=
  match goal with
  | |- context [match ?x with _ => _ end] =>
      lazymatch x with
      | context [match _ with _ => _ end] => fail
      | _ => destruct x
      end
  end.

(** ** The login verifier *)

Section Verifier.
Context `{PyRepr}.

Lemma store_token_challenges address token c st :
  challenge_storage (store_token address token c st) = challenge_storage st.
Proof. reflexivity. Qed.

Lemma store_token_lookup address token c st :
  session_token (store_token address token c st) address = Some token ∧
  auth_tokens (store_token address token c st) !! address
    ≫= (.!! "trustgo_login_time") = Some (PStr (now_isoformat c)).
Proof.
  unfold session_token, store_token. simpl.
  rewrite lookup_insert_eq. simpl.
  rewrite lookup_insert_ne by discriminate.
  by rewrite !lookup_insert_eq.
Qed.

Lemma store_token_other address token c st other :
  other ≠ address →
  auth_tokens (store_token address token c st) !! other = auth_tokens st !! other.
Proof. intros Hne. unfold store_token. simpl. by rewrite lookup_insert_ne. Qed.

(** The continuation never touches the challenge store. *)
Lemma resume_challenges address signature message reply c st :
  challenge_storage (trustgo_login_resume address signature message reply c st).1
  = challenge_storage st.
Proof.
  unfold trustgo_login_resume. unfold_try.
  repeat (case_inner; simpl; try reflexivity).
Qed.

(** If the upstream request raises, the stores stay as they were at
    the resumption. *)
Lemma resume_raised address signature message e c st :
  trustgo_login_resume address signature message (Raised e) c st
  = (st, login_failed (exn_str e)).
Proof. reflexivity. Qed.

Lemma login_failed_not_pre_upstream detail :
  ¬ pre_upstream_error (login_failed detail).
Proof.
  unfold pre_upstream_error, login_failed, no_challenge_error,
    challenge_mismatch_error, missing_answer_error, incorrect_answer_error,
    error_result.
  intros [Hr | [Hr | [Hr | (e & n & Hr)]]]; simpl in Hr; discriminate Hr.
Qed.

Lemma resume_not_pre_upstream address signature message reply c st :
  ¬ pre_upstream_error (trustgo_login_resume address signature message reply c st).2.
Proof.
  unfold trustgo_login_resume. unfold_try.
  repeat (case_inner; simpl);
    try apply login_failed_not_pre_upstream;
    unfold pre_upstream_error, signature_rejected_error, login_success,
      no_challenge_error, challenge_mismatch_error, missing_answer_error,
      incorrect_answer_error, error_result;
    intros [Hr | [Hr | [Hr | (e' & n' & Hr)]]]; discriminate Hr.
Qed.

(** The four checks, in the order the code makes them, on a record
    that holds a login challenge. *)
Lemma trustgo_login_check_order address signature message ic ifr number st :
  let t := trustgo_login address signature message ic ifr number st in
  (challenge_storage st !! Some address = None → t = Done st no_challenge_error) ∧
  (∀ ch, login_challenge st address = Some ch →
     (message ≠ Login.message ch → t = Done st challenge_mismatch_error) ∧
     (message = Login.message ch → number = None →
        t = Done st missing_answer_error) ∧
     (message = Login.message ch → ∀ n, number = Some n →
        number_eq n (Login.expected_answer ch) = false →
        t = Done st (incorrect_answer_error (Login.expected_answer ch) n))).
Proof.
  unfold trustgo_login, login_challenge. simpl. split.
  - by intros ->.
  - intros ch Hch.
    destruct (challenge_storage st !! Some address) as [r|]; [|discriminate].
    simpl in Hch. rewrite Hch. split; [|split].
    + intros Hne. apply not_eq_sym, String.eqb_neq in Hne.
      rewrite String.eqb_sym in Hne. by rewrite Hne.
    + intros -> ->. by rewrite String.eqb_refl.
    + intros -> n -> Hn. by rewrite String.eqb_refl, Hn.
Qed.

(** A record without the login keys still passes the membership test;
    [challenge["message"]] then raises and the handler answers. *)
Lemma trustgo_login_without_login_keys address signature message ic ifr number
    st r :
  challenge_storage st !! Some address = Some r →
  login r = None →
  trustgo_login address signature message ic ifr number st
  = Done st (login_failed (str_repr "message")).
Proof. unfold trustgo_login. by intros -> ->. Qed.

(** When all four checks pass the coroutine suspends on the login
    exchange, with the address already removed from the store. *)
Lemma trustgo_login_passes address signature message ic ifr n st ch :
  login_challenge st address = Some ch →
  message = Login.message ch →
  number_eq n (Login.expected_answer ch) = true →
  trustgo_login address signature message ic ifr (Some n) st
  = Await (set_challenge_storage (delete (Some address) (challenge_storage st)) st)
      (check_signed_message_request address signature message ic ifr)
      (trustgo_login_resume address signature message).
Proof.
  unfold trustgo_login, login_challenge. intros Hch -> Hn.
  destruct (challenge_storage st !! Some address) as [r|]; [|discriminate].
  simpl in Hch. by rewrite Hch, String.eqb_refl, Hn.
Qed.

(** C1: when the stored challenge passes the four local checks,
    [trustgo_login] has deleted it by the time it suspends on the
    upstream exchange; whatever the upstream then answers (a failure
    included, in which case no token is stored), a second attempt with
    the same message, signature and number gets the no-challenge
    error. *)
Theorem login_challenge_single_use address signature message ic ifr n st ch :
  login_challenge st address = Some ch →
  message = Login.message ch →
  number_eq n (Login.expected_answer ch) = true →
  let t := trustgo_login address signature message ic ifr (Some n) st in
  (∃ req k, t = Await (suspended t) req k) ∧
  challenge_storage (suspended t) !! Some address = None ∧
  auth_tokens (suspended t) = auth_tokens st ∧
  (∀ reply c,
     challenge_storage (run t reply c).1 !! Some address = None ∧
     trustgo_login address signature message ic ifr (Some n) (run t reply c).1
     = Done (run t reply c).1 no_challenge_error) ∧
  (∀ e c,
     auth_tokens (run t (Raised e) c).1 = auth_tokens st ∧
     (run t (Raised e) c).2 = login_failed (exn_str e)).
Proof.
  intros Hch Hmsg Hn.
  rewrite (trustgo_login_passes _ _ _ ic ifr _ _ _ Hch Hmsg Hn). simpl.
  split; [by eexists _, _ |].
  split; [apply lookup_delete_eq |].
  split; [reflexivity |].
  split; [| by intros e c].
  intros reply c.
  assert (Hgone : challenge_storage
            (trustgo_login_resume address signature message reply c
               (set_challenge_storage
                  (delete (Some address) (challenge_storage st)) st)).1
            !! Some address = None).
  { rewrite resume_challenges. simpl. apply lookup_delete_eq. }
  split; [exact Hgone |].
  by apply trustgo_login_check_order.
Qed.

(** C10: a call that returns one of the four pre-upstream errors
    returned without suspending and left both stores as they were; in
    particular after an incorrect answer the same challenge is still
    stored and the right number passes the checks. *)
Theorem failed_login_atomic address signature message ic ifr number st
    reply c st' r :
  run (trustgo_login address signature message ic ifr number st) reply c = (st', r) →
  pre_upstream_error r →
  st' = st ∧
  trustgo_login address signature message ic ifr number st = Done st r ∧
  (∀ expected got, r = incorrect_answer_error expected got →
     ∃ ch, login_challenge st' address = Some ch ∧
       ∀ n, number_eq n (Login.expected_answer ch) = true →
         ∃ req k, trustgo_login address signature message ic ifr (Some n) st'
                  = Await (set_challenge_storage
                             (delete (Some address) (challenge_storage st')) st')
                      req k).
Proof.
  intros Hrun Hpre.
  destruct (trustgo_login address signature message ic ifr number st)
    as [st0 r0 | st0 req k] eqn:Ht.
  - simpl in Hrun. injection Hrun as <- <-.
    assert (st0 = st) as ->.
    { unfold trustgo_login in Ht.
      repeat (case_match; try discriminate Ht); by injection Ht. }
    split; [reflexivity |]. split; [reflexivity |].
    intros expected got Hr.
    unfold trustgo_login, login_challenge in *.
    destruct (challenge_storage st !! Some address) as [rec|]; simpl.
    2:{ injection Ht as <-. discriminate Hr. }
    destruct (login rec) as [ch|].
    2:{ injection Ht as <-. unfold incorrect_answer_error, login_failed,
          error_result in Hr. simpl in Hr. discriminate Hr. }
    destruct (String.eqb message (Login.message ch)) eqn:Hm; simpl in Ht.
    2:{ injection Ht as <-. discriminate Hr. }
    exists ch. split; [reflexivity |]. intros n Hn.
    simpl. rewrite Hn. simpl. by eexists _, _.
  - exfalso. simpl in Hrun.
    unfold trustgo_login in Ht.
    repeat (case_match; try discriminate Ht).
    injection Ht as <- <- <-.
    eapply resume_not_pre_upstream. by rewrite Hrun.
Qed.
End Verifier.

(** ** The login exchange *)

Section Exchange.
Context `{PyRepr}.

Lemma trustgo_login_await address signature message ic ifr number st st1 req k :
  trustgo_login address signature message ic ifr number st = Await st1 req k →
  k = trustgo_login_resume address signature message ∧
  st1 = set_challenge_storage (delete (Some address) (challenge_storage st)) st.
Proof.
  unfold trustgo_login. intros Ht.
  repeat (case_match; try discriminate Ht).
  by injection Ht as <- <- <-.
Qed.

(** The continuation on a successful answer, by the token it carries. *)
Lemma resume_on_success address signature message status response_data token c st :
  upstream_success status response_data →
  upstream_token response_data = Some token →
  trustgo_login_resume address signature message (Reply status response_data) c st
  = if negb (truthy token)
    then (st, signature_rejected_error address signature)
    else (store_token address token c st, login_success address token message).
Proof.
  intros (-> & d & ok & -> & Hok & Htruthy) Htok.
  unfold trustgo_login_resume, upstream_token in *. unfold_try. simpl in *.
  rewrite Hok. simpl. rewrite Htruthy.
  destruct (assoc "data" d) as [[| | | | | |data]|]; simpl in *;
    try discriminate Htok; injection Htok as <-;
    [by destruct (negb (truthy _)) | reflexivity].
Qed.

(** On a successful upstream answer whose ["data"] is absent or an
    object, once the local checks have passed: a truthy token is
    stored with the acquisition time for the address and returned in a
    success; a token that is empty or absent yields the
    signature-rejected error and stores nothing. *)
Theorem login_upstream_outcome address signature message ic ifr number st
    st1 req k status response_data token :
  trustgo_login address signature message ic ifr number st = Await st1 req k →
  upstream_success status response_data →
  upstream_token response_data = Some token →
  ∀ c st2,
    (truthy token = true →
       ∃ st3,
         k (Reply status response_data) c st2
         = (st3, login_success address token message) ∧
         session_token st3 address = Some token ∧
         auth_tokens st3 !! address ≫= (.!! "trustgo_login_time")
         = Some (PStr (now_isoformat c)) ∧
         get_item (login_success address token message) "status"
         = Some (PStr "success") ∧
         get_item (login_success address token message) "token" = Some token) ∧
    (truthy token = false →
       k (Reply status response_data) c st2
       = (st2, signature_rejected_error address signature)).
Proof.
  intros Ht (-> & d & ok & -> & Hok & Htruthy) Htok c st2.
  apply trustgo_login_await in Ht as [-> _].
  rewrite (resume_on_success address signature message 200 (PDict d) token c st2);
    [| split; [reflexivity | by exists d, ok] | exact Htok].
  split; intros Ht'; rewrite Ht'; simpl; [|reflexivity].
  eexists. split; [reflexivity |].
  by destruct (store_token_lookup address token c st2).
Qed.

(** A successful answer whose ["data"] is there and is not an object
    (null, say) does not reach the token test: [.get] raises on it and
    the handler answers, with the stores as they were. *)
Lemma resume_on_malformed_data address signature message status response_data
    data c st :
  upstream_success status response_data →
  get_item response_data "data" = Some data →
  (∀ d, data ≠ PDict d) →
  trustgo_login_resume address signature message (Reply status response_data) c st
  = (st, login_failed ("'" +:+ type_name data
                       +:+ "' object has no attribute 'get'")).
Proof.
  intros (-> & d & ok & -> & Hok & Htruthy) Hdata Hno.
  unfold trustgo_login_resume. unfold_try. simpl in *.
  rewrite Hok. simpl. rewrite Htruthy, Hdata. simpl.
  destruct data as [| | | | | |dd]; try reflexivity. by destruct (Hno dd).
Qed.

(** A rejected login leaves whatever token the address already held. *)
Lemma rejected_login_keeps_session address signature message status
    response_data token c st :
  upstream_success status response_data →
  upstream_token response_data = Some token →
  truthy token = false →
  (trustgo_login_resume address signature message (Reply status response_data) c st).1
  = st.
Proof.
  intros Hsucc Htok Hfalse.
  by rewrite (resume_on_success _ _ _ _ _ _ _ _ Hsucc Htok), Hfalse.
Qed.
End Exchange.

(** ** Re-issuing a login challenge *)

Section Reissue.
Context `{PyRepr} (cfg : config).

(** C6 (amended): a second login challenge for an address replaces
    the first, and when the two were issued at different seconds a
    verification that echoes the first challenge's message gets the
    challenge-mismatch error. *)
Theorem second_challenge_invalidates_first address c1 c2 a1 a2 a3 b1 b2 b3 st
    signature ic ifr number :
  str_or address (DEFAULT_ADDRESS cfg) ≠ "" →
  now_timestamp c1 ≠ now_timestamp c2 →
  let user_address := str_or address (DEFAULT_ADDRESS cfg) in
  let issue1 := get_trustgo_login_message cfg address c1 a1 a2 a3 st in
  let issue2 := get_trustgo_login_message cfg address c2 b1 b2 b3 issue1.1 in
  (∃ ch2,
     challenge_storage issue2.1 !! Some user_address
     = Some {| login := Some ch2; twitter := None |} ∧
     Login.timestamp ch2 = now_timestamp c2 ∧
     get_item issue2.2 "message" = Some (PStr (Login.message ch2))) ∧
  (∀ m1, get_item issue1.2 "message" = Some (PStr m1) →
     trustgo_login user_address signature m1 ic ifr number issue2.1
     = Done issue2.1 challenge_mismatch_error).
Proof.
  intros Hne Hts. simpl.
  rewrite !(login_message_issue cfg _ _ _ _ _ _ Hne). simpl.
  split.
  - eexists. rewrite lookup_insert_eq. split; [reflexivity |]. by split.
  - intros m1 Hm1. injection Hm1 as <-.
    eapply (trustgo_login_check_order _ signature _ ic ifr number).
    + unfold login_challenge. simpl. by rewrite lookup_insert_eq.
    + simpl. intros Heq. by apply login_message_inj in Heq.
Qed.
End Reissue.

(** ** Social binding *)

Section Binding.
Context `{PyRepr} (cfg : config).

(** [login_twitter] writes the ["twitter"] key and keeps the login
    keys of an existing record. *)
Lemma login_twitter_keeps_login address raw st :
  challenge_storage (login_twitter address raw st).1 !! address ≫= login
  = challenge_storage st !! address ≫= login.
Proof.
  unfold login_twitter. simpl. rewrite lookup_insert_eq.
  by destruct (challenge_storage st !! address).
Qed.

Lemma login_twitter_stores address raw st :
  twitter_challenge (login_twitter address raw st).1 address
  = Some {| Twitter.message :=
              "Using AgentGo to sign with twitter " +:+ opt_str address
              +:+ " code is " +:+ pretty (randint 1000000 9999999 raw);
            Twitter.number := randint 1000000 9999999 raw;
            Twitter.user_screen_name := None |}.
Proof.
  unfold twitter_challenge, login_twitter. simpl. rewrite lookup_insert_eq.
  by destruct (challenge_storage st !! address).
Qed.

(** On an address without a record, [login_twitter] leaves a record
    that holds the ["twitter"] key only. *)
Lemma login_twitter_fresh_record address raw st :
  challenge_storage st !! address = None →
  ∃ slot, challenge_storage (login_twitter address raw st).1 !! address
          = Some {| login := None; twitter := Some slot |}.
Proof.
  intros Hnone. unfold login_twitter. simpl.
  rewrite lookup_insert_eq, Hnone. by eexists.
Qed.

(** [get_trustgo_login_message] installs a record without a
    ["twitter"] key, whatever the address held before. *)
Lemma login_message_replaces_record address c raw1 raw2 raw3 st :
  str_or address (DEFAULT_ADDRESS cfg) ≠ "" →
  twitter_challenge (get_trustgo_login_message cfg address c raw1 raw2 raw3 st).1
    (Some (str_or address (DEFAULT_ADDRESS cfg))) = None.
Proof.
  intros Hne. rewrite (login_message_issue cfg _ _ _ _ _ _ Hne).
  unfold twitter_challenge. simpl. by rewrite lookup_insert_eq.
Qed.

(** Whatever the lookup answers, a stored social-binding challenge
    keeps its message and code, and the login keys stay. *)
Lemma verify_keeps_challenge address reply c st slot :
  twitter_challenge st address = Some slot →
  let st' := (verify_twitter_signature_resume address reply c st).1 in
  (∃ slot', twitter_challenge st' address = Some slot' ∧
     Twitter.message slot' = Twitter.message slot ∧
     Twitter.number slot' = Twitter.number slot) ∧
  (challenge_storage st' !! address ≫= login)
  = (challenge_storage st !! address ≫= login) ∧
  auth_tokens st' = auth_tokens st.
Proof.
  unfold twitter_challenge. intros Hslot.
  destruct (challenge_storage st !! address) as [r|] eqn:Hr; [|discriminate].
  simpl in Hslot.
  assert (Hsame : (∃ slot', challenge_storage st !! address ≫= twitter = Some slot' ∧
                     Twitter.message slot' = Twitter.message slot ∧
                     Twitter.number slot' = Twitter.number slot) ∧
                  (challenge_storage st !! address ≫= login)
                  = (Some r ≫= login) ∧
                  auth_tokens st = auth_tokens st).
  { rewrite Hr. simpl. rewrite Hslot. split; [by eexists | done]. }
  unfold verify_twitter_signature_resume. unfold_try. rewrite Hr, Hslot.
  destruct reply as [status response_data | e]; [|exact Hsame].
  destruct (py_get response_data "text" PNone) as [e | text]; [exact Hsame |].
  destruct (negb (eq_str text (Twitter.message slot))); [exact Hsame |].
  destruct (py_get response_data "author" PNone) as [e | author]; [exact Hsame |].
  destruct (py_get author "screen_name" PNone) as [e | name]; [exact Hsame |].
  simpl. rewrite lookup_insert_eq. simpl. split; [by eexists | done].
Qed.

(** C9: for an address with a stored social-binding challenge, a
    fetched post whose text is not exactly the stored message gets the
    verification-mismatch error; an equal text records the poster's
    handle in the stored challenge and returns success with it; either
    way the stored message and code remain, and verifying again gives
    the same outcome. *)
Theorem verify_twitter_exact_and_repeatable tweet_id address st r slot
    status d c :
  challenge_storage st !! address = Some r →
  twitter r = Some slot →
  let text := default PNone (assoc "text" d) in
  let outcome :=
    run (verify_twitter_signature cfg tweet_id address st)
      (Reply status (PDict d)) c in
  (text ≠ PStr (Twitter.message slot) →
     outcome = (st, verification_mismatch_error (PDict d)) ∧
     get_item outcome.2 "status" = Some (PStr "error") ∧
     get_item outcome.2 "message"
     = Some (PStr "Twitter signature verification failed") ∧
     run (verify_twitter_signature cfg tweet_id address outcome.1)
       (Reply status (PDict d)) c = outcome) ∧
  (text = PStr (Twitter.message slot) →
     ∀ author, assoc "author" d = Some (PDict author) →
       let handle := default PNone (assoc "screen_name" author) in
       outcome.2 = twitter_verified (PDict d) handle ∧
       get_item outcome.2 "status" = Some (PStr "success") ∧
       get_item outcome.2 "user_screen_name" = Some handle ∧
       challenge_storage outcome.1 !! address
       = Some {| login := login r;
                 twitter := Some {| Twitter.message := Twitter.message slot;
                                    Twitter.number := Twitter.number slot;
                                    Twitter.user_screen_name := Some handle |} |} ∧
       run (verify_twitter_signature cfg tweet_id address outcome.1)
         (Reply status (PDict d)) c = outcome) ∧
  (∃ slot', twitter_challenge outcome.1 address = Some slot' ∧
     Twitter.message slot' = Twitter.message slot ∧
     Twitter.number slot' = Twitter.number slot).
Proof.
  intros Hr Hslot. simpl.
  split; [|split].
  - intros Hne.
    assert (Hcmp : eq_str (default PNone (assoc "text" d)) (Twitter.message slot)
                   = false).
    { apply not_true_is_false. by rewrite eq_str_true. }
    unfold verify_twitter_signature_resume. unfold_try. simpl.
    rewrite Hr, Hslot, Hcmp. simpl.
    do 3 (split; [reflexivity |]). by rewrite Hr, Hslot, Hcmp.
  - intros Heq author Hauthor.
    apply eq_str_true in Heq.
    unfold verify_twitter_signature_resume. unfold_try. simpl.
    rewrite Hr, Hslot, Heq, Hauthor. simpl.
    do 3 (split; [reflexivity |]).
    rewrite lookup_insert_eq. split; [reflexivity |].
    simpl. rewrite Heq.
    unfold set_user_screen_name. simpl. by rewrite insert_insert_eq.
  - apply (verify_keeps_challenge address (Reply status (PDict d)) c st slot).
    unfold twitter_challenge. by rewrite Hr.
Qed.
End Binding.

(** ** The dataset query gate *)

Section Query.
Context `{PyRepr} (cfg : config).

Lemma type_mapping_lookup bubble_type :
  ((bubble_type ∈ dataset_tags) ∧ assoc bubble_type type_mapping = Some bubble_type)
  ∨ ((bubble_type ∉ dataset_tags) ∧ assoc bubble_type type_mapping = None).
Proof.
  unfold dataset_tags, type_mapping. simpl.
  rewrite !elem_of_cons, elem_of_nil.
  destruct (String.eqb_spec bubble_type "price") as [->|Hp]; [by auto |].
  destruct (String.eqb_spec bubble_type "sigma_score") as [->|Hs]; [by auto |].
  destruct (String.eqb_spec bubble_type "mindshare") as [->|Hm]; [by auto 6 |].
  right. split; [tauto | reflexivity].
Qed.

Lemma lookup_trustgo_token_stored query_address st :
  query_address ≠ "" →
  lookup_trustgo_token query_address st
  = default PNone (session_token st query_address).
Proof.
  intros Hne. unfold lookup_trustgo_token, session_token.
  apply String.eqb_neq in Hne. rewrite Hne.
  by destruct (auth_tokens st !! query_address).
Qed.

(** C5 (amended): the query gate has no address-required error; with
    no resolvable address, or with no login-session token stored for
    the resolved address, it returns the not-authenticated error
    whatever the dataset tag; otherwise a tag outside price,
    sigma_score, mindshare gets the invalid-dataset error; the
    upstream query is issued only after both gates. *)
Theorem query_gate_order bubble_type address st :
  let query_address := str_or address (DEFAULT_ADDRESS cfg) in
  let t := query_ranked_bubbles cfg bubble_type address st in
  (query_address = "" → t = Done st not_authenticated_error) ∧
  (session_token st query_address = None → t = Done st not_authenticated_error) ∧
  (∀ token,
     query_address ≠ "" → session_token st query_address = Some token →
     (truthy token = false → t = Done st not_authenticated_error) ∧
     (truthy token = true → bubble_type ∉ dataset_tags →
        t = Done st invalid_bubble_type_error) ∧
     (truthy token = true → bubble_type ∈ dataset_tags →
        t = Await st (ranked_bubbles_request token bubble_type)
              (query_ranked_bubbles_resume bubble_type))) ∧
  (∀ st1 req k, t = Await st1 req k →
     st1 = st ∧ query_address ≠ "" ∧ bubble_type ∈ dataset_tags ∧
     ∃ token, session_token st query_address = Some token ∧ truthy token = true).
Proof.
  cbv zeta. unfold query_ranked_bubbles. cbv zeta.
  set (q := str_or address (DEFAULT_ADDRESS cfg)).
  split; [|split; [|split]].
  - intros ->. reflexivity.
  - intros Hnone. destruct (String.eqb_spec q "") as [->|Hne]; [reflexivity |].
    by rewrite (lookup_trustgo_token_stored _ _ Hne), Hnone.
  - intros token Hne Htok.
    rewrite (lookup_trustgo_token_stored _ _ Hne), Htok.
    change (default PNone (Some token)) with token.
    split; [by intros -> |].
    destruct (type_mapping_lookup bubble_type) as [[Hin Hty] | [Hout Hty]];
      rewrite Hty; split; intros -> Htag; done.
  - intros st1 req k Ht.
    destruct (String.eqb_spec q "") as [Hq|Hne].
    { rewrite Hq in Ht. discriminate Ht. }
    rewrite (lookup_trustgo_token_stored _ _ Hne) in Ht.
    destruct (session_token st q) as [token|] eqn:Htok; [|discriminate Ht].
    change (default PNone (Some token)) with token in Ht.
    destruct (truthy token) eqn:Htruthy; [|discriminate Ht].
    destruct (type_mapping_lookup bubble_type) as [[Hin Hty] | [Hout Hty]];
      rewrite Hty in Ht; [|discriminate Ht].
    injection Ht as <- _ _. repeat split; [done.. |]. by exists token.
Qed.
End Query.

(** ** The theorems on concrete runs *)

Lemma expected_answer_roundtrip_witness :
  ∃ cc num1 num2 num3 ch,
    get_item Sample.issued.2 "calculation_challenge" = Some cc ∧
    get_int cc "num1" = Some num1 ∧
    get_int cc "num2" = Some num2 ∧
    get_int cc "num3" = Some num3 ∧
    login_challenge Sample.issued.1
      (str_or (Some Sample.alice) (DEFAULT_ADDRESS Sample.cfg)) = Some ch ∧
    Login.expected_answer ch = (num1 * num2) + (num3 ^ 2) - (num1 mod num3) ∧
    1000000 ≤ num1 ≤ 9999999 ∧
    1000000 ≤ num2 ≤ 9999999 ∧
    100 ≤ num3 ≤ 999.
Proof.
  apply (expected_answer_roundtrip Sample.cfg (Some Sample.alice) Sample.noon
           0 0 0 empty_state Sample.issued.1 Sample.issued.2);
    reflexivity.
Defined.

Lemma login_message_hides_answer_witness :
  ∃ cc ch,
    login_challenge Sample.issued.1
      (str_or (Some Sample.alice) (DEFAULT_ADDRESS Sample.cfg)) = Some ch ∧
    get_item Sample.issued.2 "calculation_challenge" = Some cc ∧
    get_item cc "num1" = Some (PInt (randint 1000000 9999999 0)) ∧
    get_item cc "num2" = Some (PInt (randint 1000000 9999999 0)) ∧
    get_item cc "num3" = Some (PInt (randint 100 999 0)) ∧
    get_item cc "description"
      = Some (PStr "Calculate: (num1 * num2) + (num3^2) - (num1 % num3)") ∧
    keys_of Sample.issued.2
      = ["status"; "message"; "calculation_challenge"; "description";
         "num1"; "num2"; "num3"; "formula"; "instructions"] ∧
    ("expected_answer" ∉ keys_of Sample.issued.2) ∧
    ((Login.expected_answer ch) ∉ ints_of Sample.issued.2) ∧
    floats_of Sample.issued.2 = [] ∧
    get_item Sample.issued.2 "message"
      = Some (PStr ("sign the message to login trustgo"
                    +:+ pretty (now_timestamp Sample.noon))) ∧
    (∀ s, s ∈ strings_of Sample.issued.2 →
       s = "sign the message to login trustgo" +:+ pretty (now_timestamp Sample.noon) ∨
       ¬ occurs (pretty (Login.expected_answer ch)) s) ∧
    (Z.abs (now_timestamp Sample.noon) < 10 ^ 12 →
     ∀ s, s ∈ strings_of Sample.issued.2 →
       ¬ occurs (pretty (Login.expected_answer ch)) s).
Proof.
  apply (login_message_hides_answer Sample.cfg (Some Sample.alice) Sample.noon
           0 0 0 empty_state Sample.issued.1 Sample.issued.2);
    reflexivity.
Defined.

Lemma login_challenge_single_use_witness :
  let t := @trustgo_login plain_repr Sample.alice "0xsig"
             "sign the message to login trustgo1700000000"
             (Some "8ZRT9G1") (Some "twitter") (Some (NInt 1000000010000))
             Sample.issued.1 in
  (∃ req k, t = Await (suspended t) req k) ∧
  challenge_storage (suspended t) !! Some Sample.alice = None ∧
  auth_tokens (suspended t) = auth_tokens Sample.issued.1 ∧
  (∀ reply c,
     challenge_storage (run t reply c).1 !! Some Sample.alice = None ∧
     @trustgo_login plain_repr Sample.alice "0xsig"
       "sign the message to login trustgo1700000000"
       (Some "8ZRT9G1") (Some "twitter") (Some (NInt 1000000010000))
       (run t reply c).1
     = Done (run t reply c).1 no_challenge_error) ∧
  (∀ e c,
     auth_tokens (run t (Raised e) c).1 = auth_tokens Sample.issued.1 ∧
     (run t (Raised e) c).2 = login_failed (@exn_str plain_repr e)).
Proof.
  apply (@login_challenge_single_use plain_repr Sample.alice "0xsig"
           "sign the message to login trustgo1700000000"
           (Some "8ZRT9G1") (Some "twitter") (NInt 1000000010000)
           Sample.issued.1
           {| Login.expected_answer := 1000000010000;
              Login.timestamp := 1700000000;
              Login.message := "sign the message to login trustgo1700000000";
              Login.challenge_created := "2023-11-14T22:13:20" |});
    reflexivity.
Defined.

Lemma failed_login_atomic_witness :
  Sample.issued.1 = Sample.issued.1 ∧
  @trustgo_login plain_repr Sample.alice "0xsig"
    "sign the message to login trustgo1700000000"
    (Some "8ZRT9G1") (Some "twitter") (Some (NInt 5)) Sample.issued.1
  = Done Sample.issued.1 (@incorrect_answer_error plain_repr 1000000010000 (NInt 5)) ∧
  (∀ expected got,
     @incorrect_answer_error plain_repr 1000000010000 (NInt 5)
     = @incorrect_answer_error plain_repr expected got →
     ∃ ch, login_challenge Sample.issued.1 Sample.alice = Some ch ∧
       ∀ n, number_eq n (Login.expected_answer ch) = true →
         ∃ req k,
           @trustgo_login plain_repr Sample.alice "0xsig"
             "sign the message to login trustgo1700000000"
             (Some "8ZRT9G1") (Some "twitter") (Some n) Sample.issued.1
           = Await (set_challenge_storage
                      (delete (Some Sample.alice)
                         (challenge_storage Sample.issued.1)) Sample.issued.1)
               req k).
Proof.
  apply (@failed_login_atomic plain_repr Sample.alice "0xsig"
           "sign the message to login trustgo1700000000"
           (Some "8ZRT9G1") (Some "twitter") (Some (NInt 5)) Sample.issued.1
           (Raised (ClientError "unreachable")) Sample.noon).
  - reflexivity.
  - right. right. right. by exists 1000000010000, (NInt 5).
Defined.

Lemma login_upstream_outcome_witness :
  let response_data :=
    PDict [("success", PBool true); ("data", PDict [("token", PStr "tok-1")])] in
  let st2 :=
    set_challenge_storage
      (delete (Some Sample.alice) (challenge_storage Sample.issued.1))
      Sample.issued.1 in
  (truthy (PStr "tok-1") = true →
     ∃ st3,
       @trustgo_login_resume plain_repr Sample.alice "0xsig"
         "sign the message to login trustgo1700000000"
         (Reply 200 response_data) Sample.later st2
       = (st3, login_success Sample.alice (PStr "tok-1")
                 "sign the message to login trustgo1700000000") ∧
       session_token st3 Sample.alice = Some (PStr "tok-1") ∧
       auth_tokens st3 !! Sample.alice ≫= (.!! "trustgo_login_time")
       = Some (PStr (now_isoformat Sample.later)) ∧
       get_item (login_success Sample.alice (PStr "tok-1")
                   "sign the message to login trustgo1700000000") "status"
       = Some (PStr "success") ∧
       get_item (login_success Sample.alice (PStr "tok-1")
                   "sign the message to login trustgo1700000000") "token"
       = Some (PStr "tok-1")) ∧
  (truthy (PStr "tok-1") = false →
     @trustgo_login_resume plain_repr Sample.alice "0xsig"
       "sign the message to login trustgo1700000000"
       (Reply 200 response_data) Sample.later st2
     = (st2, signature_rejected_error Sample.alice "0xsig")).
Proof.
  refine (@login_upstream_outcome plain_repr Sample.alice "0xsig"
            "sign the message to login trustgo1700000000"
            (Some "8ZRT9G1") (Some "twitter") (Some (NInt 1000000010000))
            Sample.issued.1
            (set_challenge_storage
               (delete (Some Sample.alice) (challenge_storage Sample.issued.1))
               Sample.issued.1)
            (check_signed_message_request Sample.alice "0xsig"
               "sign the message to login trustgo1700000000"
               (Some "8ZRT9G1") (Some "twitter"))
            (@trustgo_login_resume plain_repr Sample.alice "0xsig"
               "sign the message to login trustgo1700000000")
            200
            (PDict [("success", PBool true); ("data", PDict [("token", PStr "tok-1")])])
            (PStr "tok-1") _ _ _ Sample.later _).
  - reflexivity.
  - split; [reflexivity |].
    exists [("success", PBool true); ("data", PDict [("token", PStr "tok-1")])],
      (PBool true).
    repeat split.
  - reflexivity.
Defined.

Lemma second_challenge_invalidates_first_witness :
  let issue2 :=
    get_trustgo_login_message Sample.cfg (Some Sample.alice) Sample.later 1 1 1
      Sample.issued.1 in
  (∃ ch2,
     challenge_storage issue2.1 !! Some Sample.alice
     = Some {| login := Some ch2; twitter := None |} ∧
     Login.timestamp ch2 = now_timestamp Sample.later ∧
     get_item issue2.2 "message" = Some (PStr (Login.message ch2))) ∧
  (∀ m1, get_item Sample.issued.2 "message" = Some (PStr m1) →
     @trustgo_login plain_repr Sample.alice "0xsig" m1
       (Some "8ZRT9G1") (Some "twitter") (Some (NInt 1000000010000)) issue2.1
     = Done issue2.1 challenge_mismatch_error).
Proof.
  apply (@second_challenge_invalidates_first plain_repr Sample.cfg
           (Some Sample.alice) Sample.noon Sample.later 0 0 0 1 1 1 empty_state
           "0xsig" (Some "8ZRT9G1") (Some "twitter") (Some (NInt 1000000010000)));
    discriminate.
Defined.

Lemma verify_twitter_exact_and_repeatable_witness :
  let d := [("text", PStr "Using AgentGo to sign with twitter 0xABC code is 1000005");
            ("author", PDict [("screen_name", PStr "alice_x")])] in
  let slot := {| Twitter.message :=
                   "Using AgentGo to sign with twitter 0xABC code is 1000005";
                 Twitter.number := 1000005;
                 Twitter.user_screen_name := None |} in
  let text := default PNone (assoc "text" d) in
  let outcome :=
    run (@verify_twitter_signature plain_repr Sample.cfg "1234567890"
           (Some Sample.alice) Sample.bound.1)
      (Reply 200 (PDict d)) Sample.noon in
  (text ≠ PStr (Twitter.message slot) →
     outcome = (Sample.bound.1, verification_mismatch_error (PDict d)) ∧
     get_item outcome.2 "status" = Some (PStr "error") ∧
     get_item outcome.2 "message"
     = Some (PStr "Twitter signature verification failed") ∧
     run (@verify_twitter_signature plain_repr Sample.cfg "1234567890"
            (Some Sample.alice) outcome.1)
       (Reply 200 (PDict d)) Sample.noon = outcome) ∧
  (text = PStr (Twitter.message slot) →
     ∀ author, assoc "author" d = Some (PDict author) →
       let handle := default PNone (assoc "screen_name" author) in
       outcome.2 = twitter_verified (PDict d) handle ∧
       get_item outcome.2 "status" = Some (PStr "success") ∧
       get_item outcome.2 "user_screen_name" = Some handle ∧
       challenge_storage outcome.1 !! Some Sample.alice
       = Some {| login := None;
                 twitter := Some {| Twitter.message := Twitter.message slot;
                                    Twitter.number := Twitter.number slot;
                                    Twitter.user_screen_name := Some handle |} |} ∧
       run (@verify_twitter_signature plain_repr Sample.cfg "1234567890"
              (Some Sample.alice) outcome.1)
         (Reply 200 (PDict d)) Sample.noon = outcome) ∧
  (∃ slot', twitter_challenge outcome.1 (Some Sample.alice) = Some slot' ∧
     Twitter.message slot' = Twitter.message slot ∧
     Twitter.number slot' = Twitter.number slot).
Proof.
  apply (@verify_twitter_exact_and_repeatable plain_repr Sample.cfg "1234567890"
           (Some Sample.alice) Sample.bound.1
           {| login := None;
              twitter := Some {| Twitter.message :=
                                   "Using AgentGo to sign with twitter 0xABC code is 1000005";
                                 Twitter.number := 1000005;
                                 Twitter.user_screen_name := None |} |});
    reflexivity.
Defined.

(** C5, as stated, fails where no address resolves: the gate answers
    with its not-authenticated error, which is not the address-required
    error the generator returns in the same situation. *)
Lemma query_without_address_counterexample :
  str_or None (DEFAULT_ADDRESS Sample.cfg) = "" ∧
  @query_ranked_bubbles plain_repr Sample.cfg "price" None empty_state
  = Done empty_state not_authenticated_error ∧
  (get_trustgo_login_message Sample.cfg None Sample.noon 0 0 0 empty_state).2
  = address_required_error ∧
  not_authenticated_error ≠ address_required_error.
Proof. repeat split. discriminate. Qed.

(** C6, as stated, fails when the second challenge is issued within
    the same second as the first: both messages are the same text, so
    the echo of the first passes the message check and the verifier goes
    on to compare the number. *)
Lemma same_second_reissue_counterexample :
  get_item Sample.issued.2 "message"
  = Some (PStr "sign the message to login trustgo1700000000") ∧
  login_challenge Sample.issued.1 Sample.alice
  ≫= (λ ch, Some (Login.expected_answer ch)) = Some 1000000010000 ∧
  @trustgo_login plain_repr Sample.alice "0xsig"
    "sign the message to login trustgo1700000000"
    (Some "8ZRT9G1") (Some "twitter") (Some (NInt 1000000010000))
    Sample.reissued.1
  = Done Sample.reissued.1
      (@incorrect_answer_error plain_repr 1000002010202 (NInt 1000000010000)) ∧
  @incorrect_answer_error plain_repr 1000002010202 (NInt 1000000010000)
  ≠ challenge_mismatch_error.
Proof. repeat split. discriminate. Qed.

(** C2 at a record that holds a social-binding slot only (the store
    after [login_twitter("0xABC")]): no login challenge is stored and
    no number is given, yet the answer is none of the no-challenge,
    challenge-mismatch and missing-answer errors; the lookup of
    ["message"] raises and the handler reports the [KeyError]. *)
Theorem login_on_twitter_only_record :
  login_challenge Sample.bound.1 Sample.alice = None ∧
  @trustgo_login plain_repr Sample.alice "0xsig"
    "sign the message to login trustgo1700000000"
    (Some "8ZRT9G1") (Some "twitter") None Sample.bound.1
  = Done Sample.bound.1 (login_failed "'message'") ∧
  login_failed "'message'" ≠ no_challenge_error ∧
  login_failed "'message'" ≠ challenge_mismatch_error ∧
  login_failed "'message'" ≠ missing_answer_error.
Proof. repeat split; discriminate. Qed.

(** C7 at an upstream answer with status 200 and the body
    [{"success": true, "data": null}], received after the local checks
    have passed: the upstream call succeeded and the token is missing,
    yet the answer is not the signature-rejected error; [.get] on
    [None] raises and the handler reports the [AttributeError]. No
    token is stored. *)
Theorem login_on_null_data :
  @trustgo_login plain_repr Sample.alice "0xsig"
    "sign the message to login trustgo1700000000"
    (Some "8ZRT9G1") (Some "twitter") (Some (NInt 1000000010000)) Sample.issued.1
  = Await
      (set_challenge_storage
         (delete (Some Sample.alice) (challenge_storage Sample.issued.1))
         Sample.issued.1)
      (check_signed_message_request Sample.alice "0xsig"
         "sign the message to login trustgo1700000000"
         (Some "8ZRT9G1") (Some "twitter"))
      (@trustgo_login_resume plain_repr Sample.alice "0xsig"
         "sign the message to login trustgo1700000000") ∧
  upstream_success 200 (PDict [("success", PBool true); ("data", PNone)]) ∧
  get_item (PDict [("success", PBool true); ("data", PNone)]) "data" = Some PNone ∧
  @trustgo_login_resume plain_repr Sample.alice "0xsig"
    "sign the message to login trustgo1700000000"
    (Reply 200 (PDict [("success", PBool true); ("data", PNone)])) Sample.later
    (set_challenge_storage
       (delete (Some Sample.alice) (challenge_storage Sample.issued.1))
       Sample.issued.1)
  = (set_challenge_storage
       (delete (Some Sample.alice) (challenge_storage Sample.issued.1))
       Sample.issued.1,
     login_failed "'NoneType' object has no attribute 'get'") ∧
  login_failed "'NoneType' object has no attribute 'get'"
  ≠ signature_rejected_error Sample.alice "0xsig" ∧
  session_token
    (set_challenge_storage
       (delete (Some Sample.alice) (challenge_storage Sample.issued.1))
       Sample.issued.1) Sample.alice = None.
Proof.
  split; [reflexivity |].
  split; [split; [reflexivity | by eexists _, _] |].
  split; [reflexivity |].
  split; [reflexivity |].
  split; [discriminate | reflexivity].
Qed.

(** C4 at the store after [login_twitter("0xABC")]: issuing a login
    challenge for the same address replaces the whole record, and the
    social-binding message and code are gone. *)
Theorem login_message_drops_twitter_slot :
  twitter_challenge Sample.bound.1 (Some Sample.alice)
  = Some {| Twitter.message :=
              "Using AgentGo to sign with twitter 0xABC code is 1000005";
            Twitter.number := 1000005;
            Twitter.user_screen_name := None |} ∧
  twitter_challenge
    (get_trustgo_login_message Sample.cfg (Some Sample.alice) Sample.noon 0 0 0
       Sample.bound.1).1 (Some Sample.alice) = None ∧
  login_challenge (login_twitter (Some Sample.alice) 5 Sample.issued.1).1 Sample.alice
  = login_challenge Sample.issued.1 Sample.alice.
Proof. repeat split. Qed.

(** ** Splitting on a separator *)

Lemma strip_prefix_app p t : strip_prefix p (p +:+ t) = Some t.
Proof.
  induction p as [|a p IH]; simpl; [by destruct t |].
  by rewrite Ascii.eqb_refl.
Qed.

Lemma strip_prefix_Some p s t : strip_prefix p s = Some t → s = p +:+ t.
Proof.
  revert s. induction p as [|a p IH]; intros s Hs; simpl in *.
  - destruct s; by injection Hs as <-.
  - destruct s as [|b s]; [discriminate |].
    destruct (Ascii.eqb_spec a b) as [->|]; [|discriminate].
    by rewrite (IH _ Hs).
Qed.

Lemma cut_unfold sep s :
  cut sep s
  = match strip_prefix sep s with
    | Some rest => Some (EmptyString, rest)
    | None =>
        match s with
        | EmptyString => None
        | String c s' =>
            match cut sep s' with
            | Some (before, rest) => Some (String c before, rest)
            | None => None
            end
        end
    end.
Proof. by destruct s. Qed.

Lemma cut_Some sep s before rest :
  cut sep s = Some (before, rest) → s = before +:+ sep +:+ rest.
Proof.
  revert before rest. induction s as [|c s IH]; intros before rest;
    rewrite cut_unfold.
  - destruct (strip_prefix sep EmptyString) as [t|] eqn:Hp; [|discriminate].
    intros [= <- <-]. by apply strip_prefix_Some in Hp.
  - destruct (strip_prefix sep (String c s)) as [t|] eqn:Hp.
    + intros [= <- <-]. by apply strip_prefix_Some in Hp.
    + destruct (cut sep s) as [[b r]|]; [|discriminate].
      intros [= <- <-]. simpl. by rewrite (IH b r).
Qed.

Lemma cut_None sep s :
  cut sep s = None → ∀ before rest, s ≠ before +:+ sep +:+ rest.
Proof.
  induction s as [|c s IH]; rewrite cut_unfold; intros Hcut before rest Heq.
  - destruct before; [|discriminate Heq].
    destruct sep; [discriminate Hcut | discriminate Heq].
  - destruct (strip_prefix sep (String c s)) eqn:Hp; [discriminate |].
    destruct before as [|b before].
    + change (String c s = sep +:+ rest) in Heq.
      by rewrite Heq, strip_prefix_app in Hp.
    + change (String c s = String b (before +:+ sep +:+ rest)) in Heq.
      injection Heq as -> Heq.
      destruct (cut sep s) as [[b' r]|]; [discriminate |].
      by apply (IH eq_refl before rest).
Qed.

Lemma cut_absent sep s :
  (∀ before rest, s ≠ before +:+ sep +:+ rest) → cut sep s = None.
Proof.
  intros Hno. destruct (cut sep s) as [[b r]|] eqn:Hcut; [|reflexivity].
  by apply cut_Some, Hno in Hcut.
Qed.

Lemma cut_leading sep s : cut sep (sep +:+ s) = Some (EmptyString, s).
Proof. by rewrite cut_unfold, strip_prefix_app. Qed.

(** [(sep + s).split(sep)[1]] gives back [s] when [sep] does not occur
    in it, and what precedes the next [sep] otherwise. *)
Lemma split_item1_leading sep s :
  (∀ before rest, s ≠ before +:+ sep +:+ rest) →
  split_item1 sep (sep +:+ s) = inr s.
Proof.
  intros Hno. unfold split_item1. by rewrite cut_leading, (cut_absent _ _ Hno).
Qed.

Lemma split_item1_inr sep s item :
  split_item1 sep s = inr item →
  ∃ before tail, s = before +:+ sep +:+ item +:+ tail ∧
    (tail = EmptyString ∨ ∃ more, tail = sep +:+ more).
Proof.
  unfold split_item1.
  destruct (cut sep s) as [[before rest]|] eqn:H1; [|discriminate].
  apply cut_Some in H1.
  destruct (cut sep rest) as [[it r2]|] eqn:H2; intros [= <-].
  - apply cut_Some in H2. exists before, (sep +:+ r2). split; [by subst | eauto].
  - exists before, EmptyString. split; [|by left].
    by rewrite H1, append_empty_r.
Qed.

(** ** The credential and score helpers *)

Ltac unfold_escape :=
  unfold lift, response_of, py_item, py_split_item1;
  cbv [mbind escape_bind mret escape_ret].

Section HelperFacts.
Context `{PyRepr}.

(** X13: the bearer token of a well-formed answer comes back exactly. *)
Theorem bearer_token_roundtrip access_key secret_access_key st c
    status d code data t :
  assoc "code" d = Some code →
  eq_int code 0 = true →
  assoc "data" d = Some (PDict data) →
  assoc "authorizationToken" data = Some (PStr ("Bearer " +:+ t)) →
  (∀ before rest, t ≠ before +:+ "Bearer " +:+ rest) →
  run (get_auth_token access_key secret_access_key st) (Reply status (PDict d)) c
  = (st, inr (PStr t)).
Proof.
  intros Hcode Hzero Hdata Htok Hno.
  unfold get_auth_token, get_auth_token_resume. simpl. unfold_escape. simpl.
  rewrite Hcode. simpl. rewrite Hzero, Hdata, Htok.
  by rewrite (split_item1_leading "Bearer " t Hno).
Qed.

(** X14: [get_auth_token] hands out a token only for a body whose code is
    0, and the token is a piece of the authorization string that
    directly follows a ["Bearer "]; a transport failure,
    any other code and a string without ["Bearer "] each escape as an
    exception. *)
Theorem get_auth_token_outcomes access_key secret_access_key st c :
  let call reply := (run (get_auth_token access_key secret_access_key st) reply c).2 in
  (∀ reply v, call reply = inr v →
     ∃ status d data s item before tail,
       reply = Reply status (PDict d) ∧
       eq_int (default PNone (assoc "code" d)) 0 = true ∧
       assoc "data" d = Some (PDict data) ∧
       assoc "authorizationToken" data = Some (PStr s) ∧
       v = PStr item ∧
       s = before +:+ "Bearer " +:+ item +:+ tail) ∧
  (∀ e, call (Raised e) = inl (Escaped e)) ∧
  (∀ status d,
     eq_int (default PNone (assoc "code" d)) 0 = false →
     call (Reply status (PDict d))
     = inl (Failure ("Failed to get token: "
                     +:+ py_str (default (PStr "Unknown error") (assoc "message" d))))) ∧
  (∀ status d data s,
     eq_int (default PNone (assoc "code" d)) 0 = true →
     assoc "data" d = Some (PDict data) →
     assoc "authorizationToken" data = Some (PStr s) →
     (∀ before rest, s ≠ before +:+ "Bearer " +:+ rest) →
     call (Reply status (PDict d)) = inl IndexError).
Proof.
  cbv zeta. unfold get_auth_token, get_auth_token_resume. simpl.
  split; [|split; [|split]].
  - intros [status body | e] v; unfold_escape; simpl; [|discriminate].
    destruct body as [| | | | | |d]; simpl; try discriminate.
    destruct (eq_int (default PNone (assoc "code" d)) 0) eqn:Hzero; [|discriminate].
    destruct (assoc "data" d) as [data|] eqn:Hdata; [|discriminate].
    destruct data as [| | | | | |data]; try discriminate.
    destruct (assoc "authorizationToken" data) as [tok|] eqn:Htok; [|discriminate].
    destruct tok as [| | | |s| |]; try discriminate.
    destruct (split_item1 "Bearer " s) as [e|item] eqn:Hsplit; [discriminate |].
    intros [= <-].
    destruct (split_item1_inr _ _ _ Hsplit) as (before & tail & Hs & _).
    by exists status, d, data, s, item, before, tail.
  - reflexivity.
  - intros status d Hzero. unfold_escape. simpl. by rewrite Hzero.
  - intros status d data s Hzero Hdata Htok Hno. unfold_escape. simpl.
    rewrite Hzero, Hdata, Htok. unfold split_item1.
    by rewrite (cut_absent _ _ Hno).
Qed.

(** X15: [query_agent_score] returns the body's ["data"] untouched exactly
    when the body's code is 0 and the key is there, whatever the HTTP
    status; any other code escapes as [Exception("Query failed: ...")]. *)
Theorem query_agent_score_outcomes slug token st c :
  let call reply := run (query_agent_score slug token st) reply c in
  (∀ reply v,
     call reply = (st, inr v) ↔
     ∃ status d, reply = Reply status (PDict d) ∧
       eq_int (default PNone (assoc "code" d)) 0 = true ∧
       assoc "data" d = Some v) ∧
  (∀ status d,
     eq_int (default PNone (assoc "code" d)) 0 = false →
     call (Reply status (PDict d))
     = (st, inl (Failure ("Query failed: "
                          +:+ py_str (default (PStr "Unknown error") (assoc "message" d)))))) ∧
  (∀ reply, (call reply).1 = st).
Proof.
  cbv zeta. unfold query_agent_score, query_agent_score_resume. simpl.
  split; [|split].
  - intros [status body | e] v; unfold_escape; simpl.
    + destruct body as [| | | | | |d]; simpl;
        try (split; [discriminate | by intros (? & ? & [= ] & _)]).
      destruct (eq_int (default PNone (assoc "code" d)) 0) eqn:Hzero.
      * destruct (assoc "data" d) as [data|] eqn:Hdata.
        -- split.
           ++ intros [= <-]. by exists status, d.
           ++ intros (s' & d' & [= <- <-] & _ & Hv).
              rewrite Hdata in Hv. by injection Hv as <-.
        -- split; [discriminate |].
           intros (s' & d' & [= <- <-] & _ & Hv). by rewrite Hdata in Hv.
      * split; [discriminate |].
        intros (s' & d' & [= <- <-] & Hz & _). by rewrite Hzero in Hz.
    + split; [discriminate | by intros (? & ? & [= ] & _)].
  - intros status d Hzero. unfold_escape. simpl. by rewrite Hzero.
  - reflexivity.
Qed.

End HelperFacts.

(** ** More on the login verifier *)

Ltac error_outcome :=
  right; split; [reflexivity | split; [reflexivity | eexists; reflexivity]].

Section LoginFacts.
Context `{PyRepr}.

(** The continuation either stores the token of a successful answer,
    or returns an error and leaves the stores as it found them. *)
Lemma resume_cases address signature message reply c st :
  let out := trustgo_login_resume address signature message reply c st in
  (∃ status response_data token,
     reply = Reply status response_data ∧
     upstream_success status response_data ∧
     upstream_token response_data = Some token ∧
     truthy token = true ∧
     out = (store_token address token c st, login_success address token message))
  ∨ (out.1 = st ∧
     get_item out.2 "status" = Some (PStr "error") ∧
     ∃ msg, get_item out.2 "message" = Some (PStr msg)).
Proof.
  cbv zeta. unfold trustgo_login_resume. unfold_try.
  destruct reply as [status rd | e]; simpl; [|error_outcome].
  destruct (Z.eqb_spec status 200) as [->|Hstatus]; simpl.
  - destruct rd as [| | | | | |d]; simpl; try error_outcome.
    destruct (assoc "success" d) as [ok|] eqn:Hsuccess; simpl;
      [|destruct (default (PStr "Unknown error") (assoc "message" d));
        error_outcome].
    destruct (truthy ok) eqn:Hok; simpl; [|error_outcome].
    destruct (assoc "data" d) as [data|] eqn:Hdata; simpl; [|error_outcome].
    destruct data as [| | | | | |dd]; simpl; try error_outcome.
    destruct (truthy (default (PStr "") (assoc "token" dd))) eqn:Htoken; simpl;
      [|error_outcome].
    left. exists 200, (PDict d), (default (PStr "") (assoc "token" dd)).
    split; [reflexivity |].
    split; [split; [reflexivity | by exists d, ok] |].
    split; [unfold upstream_token; simpl; by rewrite Hdata |].
    by split.
  - destruct rd as [| | | | | |d]; simpl; error_outcome.
Qed.

(** Before the upstream is contacted, [trustgo_login] either returns
    an error at once or has found all four checks satisfied. *)
Lemma trustgo_login_cases address signature message ic ifr number st :
  let t := trustgo_login address signature message ic ifr number st in
  (∃ r, t = Done st r ∧
     get_item r "status" = Some (PStr "error") ∧
     ∃ msg, get_item r "message" = Some (PStr msg))
  ∨ (∃ ch n,
       login_challenge st address = Some ch ∧
       message = Login.message ch ∧
       number = Some n ∧
       number_eq n (Login.expected_answer ch) = true ∧
       t = Await (set_challenge_storage
                    (delete (Some address) (challenge_storage st)) st)
             (check_signed_message_request address signature message ic ifr)
             (trustgo_login_resume address signature message)).
Proof.
  cbv zeta. unfold trustgo_login, login_challenge.
  destruct (challenge_storage st !! Some address) as [r|]; simpl;
    [|left; eexists; split; [reflexivity | split; [reflexivity | by eexists]]].
  destruct (login r) as [ch|]; simpl;
    [|left; eexists; split; [reflexivity | split; [reflexivity | by eexists]]].
  destruct (String.eqb_spec message (Login.message ch)) as [->|Hne]; simpl;
    [|left; eexists; split; [reflexivity | split; [reflexivity | by eexists]]].
  destruct number as [n|]; simpl;
    [|left; eexists; split; [reflexivity | split; [reflexivity | by eexists]]].
  destruct (number_eq n (Login.expected_answer ch)) eqn:Hn; simpl;
    [|left; eexists; split; [reflexivity | split; [reflexivity | by eexists]]].
  right. by exists ch, n.
Qed.

(** X2: A login that ends in success was earned: a challenge was stored
    for the address, the echoed message and the number matched it, the
    upstream answered 200 with a truthy ["success"] and a truthy token,
    and afterwards that token is the address's session token and the
    challenge is gone. *)
Theorem login_success_is_earned address signature message ic ifr number st
    reply c st' r :
  run (trustgo_login address signature message ic ifr number st) reply c = (st', r) →
  get_item r "status" = Some (PStr "success") →
  ∃ ch n status response_data token,
    login_challenge st address = Some ch ∧
    message = Login.message ch ∧
    number = Some n ∧
    number_eq n (Login.expected_answer ch) = true ∧
    reply = Reply status response_data ∧
    upstream_success status response_data ∧
    upstream_token response_data = Some token ∧
    truthy token = true ∧
    r = login_success address token message ∧
    session_token st' address = Some token ∧
    login_challenge st' address = None.
Proof.
  intros Hrun Hok.
  destruct (trustgo_login_cases address signature message ic ifr number st)
    as [(r0 & Ht & Herr & _) | (ch & n & Hch & Hmsg & Hnum & Hn & Ht)];
    rewrite Ht in Hrun; simpl in Hrun.
  - injection Hrun as <- <-. rewrite Herr in Hok. discriminate Hok.
  - destruct (resume_cases address signature message reply c
                (set_challenge_storage
                   (delete (Some address) (challenge_storage st)) st))
      as [(status & rd & token & -> & Hsucc & Htok & Htruthy & Hout)
         | (_ & Herr & _)].
    + rewrite Hout in Hrun. injection Hrun as <- <-.
      exists ch, n, status, rd, token.
      repeat (split; [done |]).
      split; [by destruct (store_token_lookup address token c
                             (set_challenge_storage
                                (delete (Some address) (challenge_storage st)) st)) |].
      unfold login_challenge. simpl. by rewrite lookup_delete_eq.
    + rewrite Hrun in Herr. simpl in Herr. rewrite Herr in Hok. discriminate Hok.
Qed.

(** X3: [trustgo_login] touches one address only: the challenge records
    and the sessions of every other address are as before, and unless
    the result is a success the session store as a whole is as before. *)
Theorem trustgo_login_frame address signature message ic ifr number st reply c :
  let out := run (trustgo_login address signature message ic ifr number st) reply c in
  (∀ other, other ≠ Some address →
     challenge_storage out.1 !! other = challenge_storage st !! other) ∧
  (∀ other, other ≠ address →
     auth_tokens out.1 !! other = auth_tokens st !! other) ∧
  (get_item out.2 "status" ≠ Some (PStr "success") →
     auth_tokens out.1 = auth_tokens st).
Proof.
  cbv zeta.
  destruct (trustgo_login_cases address signature message ic ifr number st)
    as [(r0 & Ht & _) | (ch & n & _ & _ & _ & _ & Ht)]; rewrite Ht; simpl.
  { by repeat split. }
  pose proof (resume_challenges address signature message reply c
                (set_challenge_storage
                   (delete (Some address) (challenge_storage st)) st)) as Hcs.
  split.
  { intros other Hne. rewrite Hcs. simpl. by rewrite lookup_delete_ne. }
  destruct (resume_cases address signature message reply c
              (set_challenge_storage
                 (delete (Some address) (challenge_storage st)) st))
    as [(status & rd & token & _ & _ & _ & _ & Hout) | (Hst & Herr & _)].
  - rewrite Hout. simpl. split.
    + intros other Hne. by rewrite lookup_insert_ne.
    + intros Hno. by destruct Hno.
  - rewrite Hst. simpl. by split.
Qed.

(** X4: once the checks have passed, an upstream answer that is not a
    success is reported with the upstream's own message (or
    ["Unknown error"]), a transport failure with the exception's text;
    in both cases the stores are left as they are at that moment. *)
Theorem login_upstream_failure_surfaces address signature message ic ifr number
    st st1 req k :
  trustgo_login address signature message ic ifr number st = Await st1 req k →
  ∀ c st2,
    (∀ status d,
       status ≠ 200 ∨ truthy (default PNone (assoc "success" d)) = false →
       k (Reply status (PDict d)) c st2
       = (st2, login_failed
                 (py_str (default (PStr "Unknown error") (assoc "message" d))))) ∧
    (∀ e, k (Raised e) c st2 = (st2, login_failed (exn_str e))).
Proof.
  intros Ht c st2. apply trustgo_login_await in Ht as [-> _].
  split; [|reflexivity].
  intros status d Hfail. unfold trustgo_login_resume. unfold_try. simpl.
  destruct (Z.eqb_spec status 200) as [->|Hstatus]; simpl; [|reflexivity].
  destruct Hfail as [Hfail | Hfail]; [done |]. by rewrite Hfail.
Qed.

(** X5: the continuation of a login does not write the challenge store: a
    challenge issued for any address while the login was waiting for
    the upstream is still there when the login returns. *)
Theorem challenge_issued_meanwhile_survives address signature message ic ifr
    number st st1 req k :
  trustgo_login address signature message ic ifr number st = Await st1 req k →
  ∀ reply c st2, challenge_storage (k reply c st2).1 = challenge_storage st2.
Proof.
  intros Ht reply c st2. apply trustgo_login_await in Ht as [-> _].
  apply resume_challenges.
Qed.

(** X6: the local phase never looks at the signature or at the invitation
    fields: they change neither which error is returned nor whether the
    upstream is contacted, only what is forwarded. *)
Theorem local_checks_ignore_signature address message number st
    signature ic ifr signature' ic' ifr' :
  let t := trustgo_login address signature message ic ifr number st in
  let t' := trustgo_login address signature' message ic' ifr' number st in
  (∀ r, t = Done st r → t' = Done st r) ∧
  (∀ st1 req k, t = Await st1 req k →
     t' = Await st1
            (check_signed_message_request address signature' message ic' ifr')
            (trustgo_login_resume address signature' message) ∧
     get_item (req_json req) "signature" = Some (PStr signature)).
Proof.
  cbv zeta. unfold trustgo_login.
  destruct (challenge_storage st !! Some address) as [r|];
    [|split; [done | discriminate]].
  destruct (login r) as [ch|]; [|split; [done | discriminate]].
  destruct (negb (String.eqb message (Login.message ch)));
    [split; [done | discriminate] |].
  destruct number as [n|]; [|split; [done | discriminate]].
  destruct (negb (number_eq n (Login.expected_answer ch)));
    [split; [done | discriminate] |].
  split; [discriminate |]. intros st1 req k [= <- <- <-]. by split.
Qed.
End LoginFacts.

(** ** From a challenge to an authorized query *)

Section Flow.
Context `{PyRepr} (cfg : config).

Lemma query_without_token bubble_type address st :
  truthy (lookup_trustgo_token (str_or address (DEFAULT_ADDRESS cfg)) st) = false →
  query_ranked_bubbles cfg bubble_type address st = Done st not_authenticated_error.
Proof. unfold query_ranked_bubbles. by intros ->. Qed.

Lemma query_with_token bubble_type address st :
  truthy (lookup_trustgo_token (str_or address (DEFAULT_ADDRESS cfg)) st) = true →
  bubble_type ∈ dataset_tags →
  query_ranked_bubbles cfg bubble_type address st
  = Await st
      (ranked_bubbles_request
         (lookup_trustgo_token (str_or address (DEFAULT_ADDRESS cfg)) st) bubble_type)
      (query_ranked_bubbles_resume bubble_type).
Proof.
  unfold query_ranked_bubbles. intros -> Hin.
  by destruct (type_mapping_lookup bubble_type) as [[_ ->] | [Hout _]].
Qed.

Lemma query_with_bad_tag bubble_type address st :
  truthy (lookup_trustgo_token (str_or address (DEFAULT_ADDRESS cfg)) st) = true →
  bubble_type ∉ dataset_tags →
  query_ranked_bubbles cfg bubble_type address st = Done st invalid_bubble_type_error.
Proof.
  unfold query_ranked_bubbles. intros -> Hout.
  by destruct (type_mapping_lookup bubble_type) as [[Hin _] | [_ ->]].
Qed.

Lemma lookup_after_store address token c st :
  address ≠ "" →
  lookup_trustgo_token address (store_token address token c st) = token.
Proof.
  intros Hne. rewrite (lookup_trustgo_token_stored _ _ Hne).
  by destruct (store_token_lookup address token c st) as [-> _].
Qed.

(** Sessions of other addresses, as the gate reads them, are the same
    after any run of [trustgo_login]. *)
Lemma lookup_other_after_login address signature message ic ifr number st reply c
    query_address :
  query_address ≠ address →
  lookup_trustgo_token query_address
    (run (trustgo_login address signature message ic ifr number st) reply c).1
  = lookup_trustgo_token query_address st.
Proof.
  intros Hne. unfold lookup_trustgo_token.
  destruct (String.eqb query_address ""); [reflexivity |].
  destruct (trustgo_login_cases address signature message ic ifr number st)
    as [(r0 & -> & _) | (ch & n & _ & _ & _ & _ & ->)]; simpl; [reflexivity |].
  destruct (resume_cases address signature message reply c
              (set_challenge_storage
                 (delete (Some address) (challenge_storage st)) st))
    as [(status & rd & token & _ & _ & _ & _ & ->) | (-> & _)]; simpl.
  - by rewrite lookup_insert_ne.
  - reflexivity.
Qed.

(** X1: the answer computed from the operands a challenge discloses,
    submitted with the message it returned, passes all four checks:
    the login goes on to the upstream exchange. *)
Theorem issued_challenge_passes_checks address c raw1 raw2 raw3 st signature ic ifr
    st1 result msg cc num1 num2 num3 :
  get_trustgo_login_message cfg address c raw1 raw2 raw3 st = (st1, result) →
  get_item result "message" = Some (PStr msg) →
  get_item result "calculation_challenge" = Some cc →
  get_int cc "num1" = Some num1 →
  get_int cc "num2" = Some num2 →
  get_int cc "num3" = Some num3 →
  trustgo_login (str_or address (DEFAULT_ADDRESS cfg)) signature msg ic ifr
    (Some (NInt ((num1 * num2) + (num3 ^ 2) - (num1 mod num3)))) st1
  = Await
      (set_challenge_storage
         (delete (Some (str_or address (DEFAULT_ADDRESS cfg)))
            (challenge_storage st1)) st1)
      (check_signed_message_request (str_or address (DEFAULT_ADDRESS cfg))
         signature msg ic ifr)
      (trustgo_login_resume (str_or address (DEFAULT_ADDRESS cfg)) signature msg).
Proof.
  intros Hrun Hmsg Hcc H1 H2 H3.
  destruct (String.eqb_spec (str_or address (DEFAULT_ADDRESS cfg)) "") as [Hq|Hne].
  { unfold get_trustgo_login_message in Hrun.
    rewrite Hq in Hrun. simpl in Hrun. injection Hrun as <- <-.
    discriminate Hcc. }
  rewrite (login_message_issue cfg _ _ _ _ _ _ Hne) in Hrun.
  injection Hrun as <- <-.
  injection Hmsg as <-. injection Hcc as <-.
  injection H1 as <-. injection H2 as <-. injection H3 as <-.
  eapply trustgo_login_passes.
  - unfold login_challenge. simpl. by rewrite lookup_insert_eq.
  - reflexivity.
  - simpl. apply Z.eqb_refl.
Qed.

(** X7: after a login that the upstream accepted with a truthy token, a
    query for the same (non-empty) address with a known dataset tag is
    sent upstream with ["TOKEN <token>"] as its authorization; with an
    unknown tag it gets the invalid-dataset error. *)
Theorem accepted_login_authorizes_queries address signature message status
    response_data token c st bubble_type :
  address ≠ "" →
  upstream_success status response_data →
  upstream_token response_data = Some token →
  truthy token = true →
  let st' := (trustgo_login_resume address signature message
                (Reply status response_data) c st).1 in
  (bubble_type ∈ dataset_tags →
     query_ranked_bubbles cfg bubble_type (Some address) st'
     = Await st' (ranked_bubbles_request token bubble_type)
         (query_ranked_bubbles_resume bubble_type) ∧
     assoc "Authorization" (req_headers (ranked_bubbles_request token bubble_type))
     = Some ("TOKEN " +:+ py_str token) ∧
     req_params (ranked_bubbles_request token bubble_type) = [("type", bubble_type)]) ∧
  (bubble_type ∉ dataset_tags →
     query_ranked_bubbles cfg bubble_type (Some address) st'
     = Done st' invalid_bubble_type_error).
Proof.
  intros Hne Hsucc Htok Htruthy. cbv zeta.
  rewrite (resume_on_success _ _ _ _ _ _ _ _ Hsucc Htok), Htruthy. simpl.
  assert (Hq : str_or (Some address) (DEFAULT_ADDRESS cfg) = address).
  { simpl. apply String.eqb_neq in Hne. by rewrite Hne. }
  assert (Hlook : lookup_trustgo_token
                    (str_or (Some address) (DEFAULT_ADDRESS cfg))
                    (store_token address token c st) = token).
  { rewrite Hq. by apply lookup_after_store. }
  split; intros Htag.
  - rewrite query_with_token by (by rewrite ?Hlook).
    rewrite Hlook. by repeat split.
  - apply query_with_bad_tag; [by rewrite Hlook | done].
Qed.

(** X8: A session belongs to its address: whatever a [trustgo_login] for
    one address does, a query that resolves to a different address and
    was refused before is refused after. *)
Theorem login_does_not_authorize_others address signature message ic ifr number
    st reply c bubble_type other :
  str_or other (DEFAULT_ADDRESS cfg) ≠ address →
  query_ranked_bubbles cfg bubble_type other st = Done st not_authenticated_error →
  let st' := (run (trustgo_login address signature message ic ifr number st)
                reply c).1 in
  query_ranked_bubbles cfg bubble_type other st' = Done st' not_authenticated_error.
Proof.
  intros Hne Hbefore. cbv zeta.
  apply query_without_token.
  rewrite (lookup_other_after_login _ _ _ _ _ _ _ _ _ _ Hne).
  destruct (truthy (lookup_trustgo_token (str_or other (DEFAULT_ADDRESS cfg)) st))
    eqn:Htoken; [|reflexivity].
  exfalso.
  destruct (type_mapping_lookup bubble_type) as [[Hin _] | [Hout _]].
  - rewrite (query_with_token _ _ _ Htoken Hin) in Hbefore. discriminate Hbefore.
  - rewrite (query_with_bad_tag _ _ _ Htoken Hout) in Hbefore.
    discriminate Hbefore.
Qed.


Lemma reshape_success shape c st bubble_type body now :
  reshape_bubbles shape c st (ranked_bubbles_success bubble_type body now)
  = (st, shape body (PStr now)).
Proof. reflexivity. Qed.

Lemma reshape_error shape c st msg :
  reshape_bubbles shape c st (error_result msg) = (st, error_result msg).
Proof. reflexivity. Qed.



End Flow.

(** ** More on social binding and on the challenge store *)

Lemma append_inj_l p x y : p +:+ x = p +:+ y → x = y.
Proof.
  induction p as [|a p IH]; [done |].
  change (String a (p +:+ x) = String a (p +:+ y) → x = y).
  intros [= Heq]. by apply IH.
Qed.

Section BindingFacts.
Context `{PyRepr} (cfg : config).

Lemma twitter_message_inj address (n1 n2 : Z) :
  "Using AgentGo to sign with twitter " +:+ opt_str address +:+ " code is " +:+ pretty n1
  = "Using AgentGo to sign with twitter " +:+ opt_str address +:+ " code is " +:+ pretty n2 →
  n1 = n2.
Proof.
  intros Heq. do 3 apply append_inj_l in Heq. by apply (inj pretty).
Qed.

(** X16: A post that carries exactly the message [login_twitter] returned
    verifies: the poster's handle is returned and recorded, and the
    stored code is the seven-digit number that was handed out. *)
Theorem twitter_binding_roundtrip address raw st tweet_id status d author c msg :
  get_item (login_twitter address raw st).2 "message" = Some (PStr msg) →
  assoc "text" d = Some (PStr msg) →
  assoc "author" d = Some (PDict author) →
  let handle := default PNone (assoc "screen_name" author) in
  let out := run (verify_twitter_signature cfg tweet_id address
                    (login_twitter address raw st).1)
               (Reply status (PDict d)) c in
  out.2 = twitter_verified (PDict d) handle ∧
  get_item out.2 "status" = Some (PStr "success") ∧
  get_item out.2 "user_screen_name" = Some handle ∧
  (twitter_challenge out.1 address ≫= Twitter.user_screen_name) = Some handle ∧
  ∃ code,
    get_int (login_twitter address raw st).2 "number" = Some code ∧
    1000000 ≤ code ≤ 9999999 ∧
    (Twitter.number <$> twitter_challenge out.1 address) = Some code.
Proof.
  intros Hmsg Htext Hauthor. cbv zeta.
  unfold login_twitter in *. simpl in *. injection Hmsg as <-.
  unfold verify_twitter_signature_resume. unfold_try. simpl.
  rewrite Htext, lookup_insert_eq. simpl.
  assert (Hslot : twitter
            match challenge_storage st !! address with
            | Some r =>
                {| login := login r;
                   twitter := Some
                     {| Twitter.message :=
                          "Using AgentGo to sign with twitter " +:+ opt_str address
                          +:+ " code is " +:+ pretty (randint 1000000 9999999 raw);
                        Twitter.number := randint 1000000 9999999 raw;
                        Twitter.user_screen_name := None |} |}
            | None =>
                {| login := None;
                   twitter := Some
                     {| Twitter.message :=
                          "Using AgentGo to sign with twitter " +:+ opt_str address
                          +:+ " code is " +:+ pretty (randint 1000000 9999999 raw);
                        Twitter.number := randint 1000000 9999999 raw;
                        Twitter.user_screen_name := None |} |}
            end
          = Some {| Twitter.message :=
                      "Using AgentGo to sign with twitter " +:+ opt_str address
                      +:+ " code is " +:+ pretty (randint 1000000 9999999 raw);
                    Twitter.number := randint 1000000 9999999 raw;
                    Twitter.user_screen_name := None |}).
  { by destruct (challenge_storage st !! address). }
  rewrite Hslot. simpl. rewrite String.eqb_refl. simpl. rewrite Hauthor. simpl.
  do 3 (split; [reflexivity |]).
  unfold twitter_challenge. simpl. rewrite lookup_insert_eq. simpl.
  split; [reflexivity |].
  eexists. split; [reflexivity |]. split; [|reflexivity].
  apply randint_range. lia.
Qed.

(** X17: A second [login_twitter] for the same address replaces the first:
    when the two codes differ, a post that carries the first message no
    longer verifies. *)
Theorem twitter_reissue_invalidates address raw1 raw2 st tweet_id status d c m1 :
  randint 1000000 9999999 raw1 ≠ randint 1000000 9999999 raw2 →
  get_item (login_twitter address raw1 st).2 "message" = Some (PStr m1) →
  assoc "text" d = Some (PStr m1) →
  let st2 := (login_twitter address raw2 (login_twitter address raw1 st).1).1 in
  run (verify_twitter_signature cfg tweet_id address st2) (Reply status (PDict d)) c
  = (st2, verification_mismatch_error (PDict d)).
Proof.
  intros Hcodes Hmsg Htext. cbv zeta.
  pose proof (login_twitter_stores address raw2 (login_twitter address raw1 st).1)
    as Hstored.
  set (st2 := (login_twitter address raw2 (login_twitter address raw1 st).1).1) in *.
  clearbody st2.
  unfold twitter_challenge in Hstored.
  destruct (challenge_storage st2 !! address) as [r|] eqn:Hr;
    [|discriminate Hstored].
  simpl in Hstored.
  unfold verify_twitter_signature. simpl.
  unfold verify_twitter_signature_resume. unfold_try. simpl.
  rewrite Htext, Hr, Hstored. simpl.
  unfold login_twitter in Hmsg. simpl in Hmsg. injection Hmsg as <-.
  assert (Hne : String.eqb
            ("Using AgentGo to sign with twitter " +:+ opt_str address
             +:+ " code is " +:+ pretty (randint 1000000 9999999 raw1))
            ("Using AgentGo to sign with twitter " +:+ opt_str address
             +:+ " code is " +:+ pretty (randint 1000000 9999999 raw2)) = false).
  { apply String.eqb_neq. intros Heq. by apply twitter_message_inj in Heq. }
  by rewrite Hne.
Qed.

(** X18: verification without a stored social-binding challenge fails in
    the handler and leaves the store alone: a [KeyError] for the
    address when it has no record, a [KeyError] for ["twitter"] when its
    record holds a login challenge only, and an [AttributeError] when
    the fetched body is not an object. *)
Theorem verify_without_challenge tweet_id address st status c :
  let call body :=
    run (verify_twitter_signature cfg tweet_id address st) (Reply status body) c in
  (∀ d, challenge_storage st !! address = None →
     call (PDict d) = (st, sign_failed (py_repr (opt_val address)))) ∧
  (∀ d r, challenge_storage st !! address = Some r → twitter r = None →
     call (PDict d) = (st, sign_failed (str_repr "twitter"))) ∧
  (∀ body, (∀ d, body ≠ PDict d) →
     call body
     = (st, sign_failed ("'" +:+ type_name body
                         +:+ "' object has no attribute 'get'"))).
Proof.
  cbv zeta. unfold verify_twitter_signature. simpl.
  unfold verify_twitter_signature_resume. unfold_try.
  split; [|split].
  - intros d Hnone. simpl. by rewrite Hnone.
  - intros d r Hr Htw. simpl. by rewrite Hr, Htw.
  - intros body Hno. destruct body; try reflexivity. by destruct (Hno d).
Qed.

(** After [get_trustgo_login_message] alone the address has a record
    without a social slot, so a verification for it ends in the
    [KeyError] for ["twitter"]. *)
Lemma verify_after_login_message_only address c raw1 raw2 raw3 st tweet_id
    status d c' :
  str_or address (DEFAULT_ADDRESS cfg) ≠ "" →
  let st1 := (get_trustgo_login_message cfg address c raw1 raw2 raw3 st).1 in
  run (verify_twitter_signature cfg tweet_id
         (Some (str_or address (DEFAULT_ADDRESS cfg))) st1)
    (Reply status (PDict d)) c'
  = (st1, sign_failed (str_repr "twitter")).
Proof.
  intros Hne. cbv zeta. rewrite (login_message_issue cfg _ _ _ _ _ _ Hne).
  unfold verify_twitter_signature. simpl.
  unfold verify_twitter_signature_resume. unfold_try. simpl.
  by rewrite lookup_insert_eq.
Qed.

(** X19: consuming the login challenge removes the whole record of the
    address, a social-binding challenge included: once a login has
    passed the local checks, verifying a post for that address fails
    with the [KeyError] for the address, whatever the post says and
    whatever the upstream answered to the login. *)
Theorem login_consumes_social_binding address signature message ic ifr number
    st st1 req k :
  trustgo_login address signature message ic ifr number st = Await st1 req k →
  ∀ reply c tweet_id status d c',
    let st2 := (k reply c st1).1 in
    twitter_challenge st2 (Some address) = None ∧
    run (verify_twitter_signature cfg tweet_id (Some address) st2)
      (Reply status (PDict d)) c'
    = (st2, sign_failed (str_repr address)).
Proof.
  intros Ht reply c tweet_id status d c'. cbv zeta.
  apply trustgo_login_await in Ht as [-> ->].
  assert (Hgone : challenge_storage
            (trustgo_login_resume address signature message reply c
               (set_challenge_storage
                  (delete (Some address) (challenge_storage st)) st)).1
            !! Some address = None).
  { rewrite resume_challenges. simpl. apply lookup_delete_eq. }
  split.
  - unfold twitter_challenge. by rewrite Hgone.
  - unfold verify_twitter_signature. simpl.
    unfold verify_twitter_signature_resume. unfold_try. simpl.
    by rewrite Hgone.
Qed.

(** X20: the three tools that write the challenge store write one key of
    it and nothing else: every other key keeps its record and the
    session store is as before. *)
Theorem challenge_tools_frame address c raw1 raw2 raw3 raw reply st :
  (auth_tokens (get_trustgo_login_message cfg address c raw1 raw2 raw3 st).1
   = auth_tokens st ∧
   ∀ other, other ≠ Some (str_or address (DEFAULT_ADDRESS cfg)) →
     challenge_storage (get_trustgo_login_message cfg address c raw1 raw2 raw3 st).1
       !! other = challenge_storage st !! other) ∧
  (auth_tokens (login_twitter address raw st).1 = auth_tokens st ∧
   ∀ other, other ≠ address →
     challenge_storage (login_twitter address raw st).1 !! other
     = challenge_storage st !! other) ∧
  (auth_tokens (verify_twitter_signature_resume address reply c st).1
   = auth_tokens st ∧
   ∀ other, other ≠ address →
     challenge_storage (verify_twitter_signature_resume address reply c st).1
       !! other = challenge_storage st !! other).
Proof.
  split; [|split].
  - unfold get_trustgo_login_message.
    destruct (String.eqb (str_or address (DEFAULT_ADDRESS cfg)) ""); simpl;
      [done |].
    split; [reflexivity |]. intros other Hne. by rewrite lookup_insert_ne.
  - unfold login_twitter. simpl. split; [reflexivity |].
    intros other Hne. by rewrite lookup_insert_ne.
  - unfold verify_twitter_signature_resume. unfold_try.
    destruct reply as [status rd | e]; simpl; [|done].
    destruct (py_get rd "text" PNone) as [e | text]; simpl; [done |].
    destruct (challenge_storage st !! address) as [r|]; simpl; [|done].
    destruct (twitter r) as [slot|]; simpl; [|done].
    destruct (negb (eq_str text (Twitter.message slot))); simpl; [done |].
    destruct (py_get rd "author" PNone) as [e | author]; simpl; [done |].
    destruct (py_get author "screen_name" PNone) as [e | name]; simpl; [done |].
    split; [reflexivity |]. intros other Hne. by rewrite lookup_insert_ne.
Qed.

(** X21: how [get_trustgo_login_message] resolves its address: a missing or
    empty argument falls back to the configured default, a non-empty
    argument wins over it, and when neither yields an address the call
    returns its error and writes nothing. *)
Theorem login_message_address_resolution address c raw1 raw2 raw3 st :
  (str_or address (DEFAULT_ADDRESS cfg) = "" →
     get_trustgo_login_message cfg address c raw1 raw2 raw3 st
     = (st, address_required_error)) ∧
  (get_trustgo_login_message cfg None c raw1 raw2 raw3 st
   = get_trustgo_login_message cfg (Some "") c raw1 raw2 raw3 st) ∧
  (DEFAULT_ADDRESS cfg ≠ "" →
     get_trustgo_login_message cfg None c raw1 raw2 raw3 st
     = get_trustgo_login_message cfg (Some (DEFAULT_ADDRESS cfg)) c raw1 raw2 raw3 st ∧
     login_challenge (get_trustgo_login_message cfg None c raw1 raw2 raw3 st).1
       (DEFAULT_ADDRESS cfg) ≠ None) ∧
  (∀ a cfg', a ≠ "" →
     get_trustgo_login_message cfg (Some a) c raw1 raw2 raw3 st
     = get_trustgo_login_message cfg' (Some a) c raw1 raw2 raw3 st).
Proof.
  split; [|split; [|split]].
  - intros Hq. unfold get_trustgo_login_message. by rewrite Hq.
  - reflexivity.
  - intros Hne. split.
    + unfold get_trustgo_login_message. simpl.
      apply String.eqb_neq in Hne. by rewrite !Hne.
    + rewrite (login_message_issue cfg None c raw1 raw2 raw3 st) by done.
      unfold login_challenge. simpl. by rewrite lookup_insert_eq.
  - intros a cfg' Hne. unfold get_trustgo_login_message. simpl.
    apply String.eqb_neq in Hne. by rewrite Hne.
Qed.
End BindingFacts.

(** ** The shape of every tool result *)

Ltac result_shape :=
  first [ left; reflexivity
        | right; split; [reflexivity | eexists; reflexivity] ].

Section Shape.
Context `{PyRepr} (cfg : config).

Lemma login_result_shape address signature message ic ifr number st reply c :
  well_formed_result
    (run (trustgo_login address signature message ic ifr number st) reply c).2.
Proof.
  destruct (trustgo_login_cases address signature message ic ifr number st)
    as [(r0 & -> & Herr & Hmsg) | (ch & n & _ & _ & _ & _ & ->)]; simpl.
  - by right.
  - destruct (resume_cases address signature message reply c
                (set_challenge_storage
                   (delete (Some address) (challenge_storage st)) st))
      as [(status & rd & token & _ & _ & _ & _ & ->) | (_ & Herr & Hmsg)].
    + by left.
    + by right.
Qed.

Lemma query_resume_shape bubble_type reply c st :
  well_formed_result (query_ranked_bubbles_resume bubble_type reply c st).2.
Proof.
  unfold query_ranked_bubbles_resume. unfold_try.
  destruct reply as [status rd | e]; simpl; [|result_shape].
  destruct (status =? 200); simpl; [result_shape |].
  destruct (py_get rd "message" (PStr "Unknown error")); simpl; result_shape.
Qed.

Lemma query_result_shape bubble_type address st reply c :
  well_formed_result (run (query_ranked_bubbles cfg bubble_type address st) reply c).2.
Proof.
  destruct (truthy (lookup_trustgo_token (str_or address (DEFAULT_ADDRESS cfg)) st))
    eqn:Htoken.
  2:{ rewrite (query_without_token cfg _ _ _ Htoken). result_shape. }
  destruct (type_mapping_lookup bubble_type) as [[Hin _] | [Hout _]].
  - rewrite (query_with_token cfg _ _ _ Htoken Hin). apply query_resume_shape.
  - rewrite (query_with_bad_tag cfg _ _ _ Htoken Hout). result_shape.
Qed.

Lemma verify_result_shape address reply c st :
  well_formed_result (verify_twitter_signature_resume address reply c st).2.
Proof.
  unfold verify_twitter_signature_resume. unfold_try.
  destruct reply as [status rd | e]; simpl; [|result_shape].
  destruct (py_get rd "text" PNone) as [e | text]; simpl; [result_shape |].
  destruct (challenge_storage st !! address) as [r|]; simpl; [|result_shape].
  destruct (twitter r) as [slot|]; simpl; [|result_shape].
  destruct (negb (eq_str text (Twitter.message slot))); simpl; [result_shape |].
  destruct (py_get rd "author" PNone) as [e | author]; simpl; [result_shape |].
  destruct (py_get author "screen_name" PNone) as [e | name]; simpl; result_shape.
Qed.

Lemma claim_result_shape reply c st :
  well_formed_result (claim_sigma_attestation_resume reply c st).2.
Proof.
  unfold claim_sigma_attestation_resume. unfold_try.
  destruct reply as [status rd | e]; simpl; [|result_shape].
  destruct (py_get rd "code" PNone) as [e | code]; simpl; [result_shape |].
  destruct (eq_int code 0); simpl.
  - destruct (py_get rd "data" (PDict [])); simpl; result_shape.
  - destruct (py_get rd "message" (PStr "Unknown error")); simpl; result_shape.
Qed.

(** Reshaping keeps the shape, for any [shape] that builds a success. *)
Lemma reshape_shape shape c st r :
  (∀ data update_time,
     get_item (shape data update_time) "status" = Some (PStr "success")) →
  well_formed_result r →
  well_formed_result (reshape_bubbles shape c st r).2.
Proof.
  intros Hshape Hr. unfold reshape_bubbles. unfold_try.
  destruct Hr as [Hok | (Herr & msg & Hmsg)].
  - rewrite Hok. simpl. destruct r as [| | | | | |d]; try discriminate Hok.
    simpl. left. apply Hshape.
  - rewrite Herr. simpl. right. eauto.
Qed.

Lemma wrapper_result_shape shape bubble_type address c0 st reply c :
  (∀ data update_time,
     get_item (shape data update_time) "status" = Some (PStr "success")) →
  well_formed_result
    (run (and_then (query_ranked_bubbles cfg bubble_type address st)
            (reshape_bubbles shape) c0) reply c).2.
Proof.
  intros Hshape.
  pose proof (query_result_shape bubble_type address st reply c) as Hinner.
  destruct (query_ranked_bubbles cfg bubble_type address st) as [st0 r0 | st0 req k];
    simpl in *; by apply reshape_shape.
Qed.

(** X22: every tool, on every input and for every upstream answer, returns
    a dict whose ["status"] is ["success"] or ["error"], and an error
    always carries a text ["message"]. *)
Theorem tool_results_well_formed :
  (∀ address signature message ic ifr number st reply c,
     well_formed_result
       (run (trustgo_login address signature message ic ifr number st) reply c).2) ∧
  (∀ address c raw1 raw2 raw3 st,
     well_formed_result
       (get_trustgo_login_message cfg address c raw1 raw2 raw3 st).2) ∧
  (∀ bubble_type address st reply c,
     well_formed_result
       (run (query_ranked_bubbles cfg bubble_type address st) reply c).2) ∧
  (∀ address raw st, well_formed_result (login_twitter address raw st).2) ∧
  (∀ tweet_id address st reply c,
     well_formed_result
       (run (verify_twitter_signature cfg tweet_id address st) reply c).2) ∧
  (∀ token slug address st reply c,
     well_formed_result
       (run (claim_sigma_attestation token slug address st) reply c).2) ∧
  (∀ agent_slug address c0 st reply c,
     well_formed_result
       (run (query_price_bubble_info cfg agent_slug address c0 st) reply c).2) ∧
  (∀ category address c0 st reply c,
     well_formed_result
       (run (query_sigma_score_bubble_info cfg category address c0 st) reply c).2).
Proof.
  repeat split.
  - intros. apply login_result_shape.
  - intros. unfold get_trustgo_login_message.
    destruct (String.eqb _ ""); simpl; result_shape.
  - intros. apply query_result_shape.
  - intros. left. reflexivity.
  - intros. apply verify_result_shape.
  - intros. apply claim_result_shape.
  - intros. by apply wrapper_result_shape.
  - intros. by apply wrapper_result_shape.
Qed.
End Shape.

(** ** The further theorems on concrete runs *)

Lemma bearer_token_roundtrip_witness :
  run (@get_auth_token plain_repr "access" "secret" empty_state)
    (Reply 200 (PDict Scenario.credentials)) Sample.noon
  = (empty_state, inr (PStr "abc123")).
Proof.
  apply (@bearer_token_roundtrip plain_repr "access" "secret" empty_state
           Sample.noon 200 Scenario.credentials (PInt 0)
           [("authorizationToken", PStr "Bearer abc123")] "abc123");
    try reflexivity.
  apply cut_None. reflexivity.
Defined.

Lemma login_success_is_earned_witness :
  ∃ ch n status response_data token,
    login_challenge Sample.issued.1 Sample.alice = Some ch ∧
    Scenario.message = Login.message ch ∧
    Some Scenario.answer = Some n ∧
    number_eq n (Login.expected_answer ch) = true ∧
    Scenario.accepted = Reply status response_data ∧
    upstream_success status response_data ∧
    upstream_token response_data = Some token ∧
    truthy token = true ∧
    Scenario.logged.2 = login_success Sample.alice token Scenario.message ∧
    session_token Scenario.logged.1 Sample.alice = Some token ∧
    login_challenge Scenario.logged.1 Sample.alice = None.
Proof.
  apply (@login_success_is_earned plain_repr Sample.alice "0xsig" Scenario.message
           (Some "8ZRT9G1") (Some "twitter") (Some Scenario.answer) Sample.issued.1
           Scenario.accepted Sample.later Scenario.logged.1 Scenario.logged.2);
    reflexivity.
Defined.

Lemma login_upstream_failure_surfaces_witness :
  (∀ status d,
     status ≠ 200 ∨ truthy (default PNone (assoc "success" d)) = false →
     @trustgo_login_resume plain_repr Sample.alice "0xsig" Scenario.message
       (Reply status (PDict d)) Sample.later Scenario.waiting
     = (Scenario.waiting,
        login_failed
          (@py_str plain_repr (default (PStr "Unknown error") (assoc "message" d))))) ∧
  (∀ e,
     @trustgo_login_resume plain_repr Sample.alice "0xsig" Scenario.message
       (Raised e) Sample.later Scenario.waiting
     = (Scenario.waiting, login_failed (@exn_str plain_repr e))).
Proof.
  refine (@login_upstream_failure_surfaces plain_repr Sample.alice "0xsig"
            Scenario.message (Some "8ZRT9G1") (Some "twitter")
            (Some Scenario.answer) Sample.issued.1 Scenario.waiting
            (check_signed_message_request Sample.alice "0xsig" Scenario.message
               (Some "8ZRT9G1") (Some "twitter"))
            (@trustgo_login_resume plain_repr Sample.alice "0xsig" Scenario.message)
            _ Sample.later Scenario.waiting).
  reflexivity.
Defined.

Lemma challenge_issued_meanwhile_survives_witness :
  challenge_storage
    (@trustgo_login_resume plain_repr Sample.alice "0xsig" Scenario.message
       Scenario.accepted Sample.later
       (get_trustgo_login_message Sample.cfg (Some Sample.alice) Sample.later
          1 1 1 Scenario.waiting).1).1
  = challenge_storage
      (get_trustgo_login_message Sample.cfg (Some Sample.alice) Sample.later
         1 1 1 Scenario.waiting).1.
Proof.
  refine (@challenge_issued_meanwhile_survives plain_repr Sample.alice "0xsig"
            Scenario.message (Some "8ZRT9G1") (Some "twitter")
            (Some Scenario.answer) Sample.issued.1 Scenario.waiting
            (check_signed_message_request Sample.alice "0xsig" Scenario.message
               (Some "8ZRT9G1") (Some "twitter"))
            (@trustgo_login_resume plain_repr Sample.alice "0xsig" Scenario.message)
            _ Scenario.accepted Sample.later _).
  reflexivity.
Defined.

Lemma issued_challenge_passes_checks_witness :
  @trustgo_login plain_repr (str_or (Some Sample.alice) (DEFAULT_ADDRESS Sample.cfg))
    "0xsig" Scenario.message (Some "8ZRT9G1") (Some "twitter")
    (Some (NInt ((1000000 * 1000000) + (100 ^ 2) - (1000000 mod 100))))
    Sample.issued.1
  = Await
      (set_challenge_storage
         (delete (Some (str_or (Some Sample.alice) (DEFAULT_ADDRESS Sample.cfg)))
            (challenge_storage Sample.issued.1)) Sample.issued.1)
      (check_signed_message_request
         (str_or (Some Sample.alice) (DEFAULT_ADDRESS Sample.cfg))
         "0xsig" Scenario.message (Some "8ZRT9G1") (Some "twitter"))
      (@trustgo_login_resume plain_repr
         (str_or (Some Sample.alice) (DEFAULT_ADDRESS Sample.cfg))
         "0xsig" Scenario.message).
Proof.
  eapply (@issued_challenge_passes_checks plain_repr Sample.cfg (Some Sample.alice)
            Sample.noon 0 0 0 empty_state "0xsig" (Some "8ZRT9G1") (Some "twitter")
            Sample.issued.1 Sample.issued.2 Scenario.message _ 1000000 1000000 100);
    reflexivity.
Defined.

Lemma accepted_login_authorizes_queries_witness :
  (("price" : string) ∈ dataset_tags →
     @query_ranked_bubbles plain_repr Sample.cfg "price" (Some Sample.alice)
       (@trustgo_login_resume plain_repr Sample.alice "0xsig" Scenario.message
          Scenario.accepted Sample.later Scenario.waiting).1
     = Await
         (@trustgo_login_resume plain_repr Sample.alice "0xsig" Scenario.message
            Scenario.accepted Sample.later Scenario.waiting).1
         (@ranked_bubbles_request plain_repr (PStr "tok-1") "price")
         (@query_ranked_bubbles_resume plain_repr "price") ∧
     assoc "Authorization"
       (req_headers (@ranked_bubbles_request plain_repr (PStr "tok-1") "price"))
     = Some ("TOKEN " +:+ @py_str plain_repr (PStr "tok-1")) ∧
     req_params (@ranked_bubbles_request plain_repr (PStr "tok-1") "price")
     = [("type", "price")]) ∧
  (("price" : string) ∉ dataset_tags →
     @query_ranked_bubbles plain_repr Sample.cfg "price" (Some Sample.alice)
       (@trustgo_login_resume plain_repr Sample.alice "0xsig" Scenario.message
          Scenario.accepted Sample.later Scenario.waiting).1
     = Done
         (@trustgo_login_resume plain_repr Sample.alice "0xsig" Scenario.message
            Scenario.accepted Sample.later Scenario.waiting).1
         invalid_bubble_type_error).
Proof.
  apply (@accepted_login_authorizes_queries plain_repr Sample.cfg Sample.alice
           "0xsig" Scenario.message 200
           (PDict [("success", PBool true);
                   ("data", PDict [("token", PStr "tok-1")])])
           (PStr "tok-1") Sample.later Scenario.waiting "price").
  - discriminate.
  - split; [reflexivity |]. by eexists _, _.
  - reflexivity.
  - reflexivity.
Defined.

Lemma login_does_not_authorize_others_witness :
  @query_ranked_bubbles plain_repr Sample.cfg "price" (Some "0xDEF") Scenario.logged.1
  = Done Scenario.logged.1 not_authenticated_error.
Proof.
  apply (@login_does_not_authorize_others plain_repr Sample.cfg Sample.alice "0xsig"
           Scenario.message (Some "8ZRT9G1") (Some "twitter") (Some Scenario.answer)
           Sample.issued.1 Scenario.accepted Sample.later "price" (Some "0xDEF")).
  - discriminate.
  - reflexivity.
Defined.

Lemma twitter_binding_roundtrip_witness :
  let out := run (@verify_twitter_signature plain_repr Sample.cfg "1234567890"
                    (Some Sample.alice) Sample.bound.1)
               (Reply 200 (PDict Scenario.post)) Sample.noon in
  out.2 = twitter_verified (PDict Scenario.post)
            (default PNone (assoc "screen_name" [("screen_name", PStr "alice_x")])) ∧
  get_item out.2 "status" = Some (PStr "success") ∧
  get_item out.2 "user_screen_name"
  = Some (default PNone (assoc "screen_name" [("screen_name", PStr "alice_x")])) ∧
  (twitter_challenge out.1 (Some Sample.alice) ≫= Twitter.user_screen_name)
  = Some (default PNone (assoc "screen_name" [("screen_name", PStr "alice_x")])) ∧
  ∃ code,
    get_int Sample.bound.2 "number" = Some code ∧
    1000000 ≤ code ≤ 9999999 ∧
    (Twitter.number <$> twitter_challenge out.1 (Some Sample.alice)) = Some code.
Proof.
  apply (@twitter_binding_roundtrip plain_repr Sample.cfg (Some Sample.alice) 5
           empty_state "1234567890" 200 Scenario.post
           [("screen_name", PStr "alice_x")] Sample.noon
           "Using AgentGo to sign with twitter 0xABC code is 1000005");
    reflexivity.
Defined.

Lemma twitter_reissue_invalidates_witness :
  run (@verify_twitter_signature plain_repr Sample.cfg "1234567890"
         (Some Sample.alice) (login_twitter (Some Sample.alice) 6 Sample.bound.1).1)
    (Reply 200 (PDict Scenario.post)) Sample.noon
  = ((login_twitter (Some Sample.alice) 6 Sample.bound.1).1,
     verification_mismatch_error (PDict Scenario.post)).
Proof.
  apply (@twitter_reissue_invalidates plain_repr Sample.cfg (Some Sample.alice) 5 6
           empty_state "1234567890" 200 Scenario.post Sample.noon
           "Using AgentGo to sign with twitter 0xABC code is 1000005").
  - discriminate.
  - reflexivity.
  - reflexivity.
Defined.

Lemma login_consumes_social_binding_witness :
  let st2 :=
    (@trustgo_login_resume plain_repr Sample.alice "0xsig" Scenario.message
       Scenario.accepted Sample.later
       (set_challenge_storage
          (delete (Some Sample.alice) (challenge_storage Scenario.both))
          Scenario.both)).1 in
  twitter_challenge st2 (Some Sample.alice) = None ∧
  run (@verify_twitter_signature plain_repr Sample.cfg "1234567890"
         (Some Sample.alice) st2)
    (Reply 200 (PDict Scenario.post)) Sample.later
  = (st2, sign_failed (@str_repr plain_repr Sample.alice)).
Proof.
  refine (@login_consumes_social_binding plain_repr Sample.cfg Sample.alice "0xsig"
            Scenario.message (Some "8ZRT9G1") (Some "twitter")
            (Some Scenario.answer) Scenario.both
            (set_challenge_storage
               (delete (Some Sample.alice) (challenge_storage Scenario.both))
               Scenario.both)
            (check_signed_message_request Sample.alice "0xsig" Scenario.message
               (Some "8ZRT9G1") (Some "twitter"))
            (@trustgo_login_resume plain_repr Sample.alice "0xsig" Scenario.message)
            _ Scenario.accepted Sample.later "1234567890" 200 Scenario.post
            Sample.later).
  reflexivity.
Defined.
